(** * AT-200PC control program: a shallow embedding of [at200pc.py]

    The serial protocol core of the program is embedded here: the byte
    decoder and parameter store of [Application.Read], the command
    selection of the steady-state loop of [Application.main], the button
    handlers that write commands, the radio-button row of SWR thresholds
    and the arithmetic of [Application.NewData].

    Conventions.
    - A byte coming from the serial port is an [N] (iterating a Python 3
      [bytes] object yields non-negative integers); the device sends
      values below 256, see [byte_store].
    - A Python value that may be [None] is an [option]; [None] is [None].
    - Python floats are IEEE binary64 numbers, as are Rocq's primitive
      floats; the arithmetic below is the program's, operation for
      operation.
    - A Python exception is the left injection of [result].
    - Widgets are reduced to the values the program puts into them. *)

From Stdlib Require Import ZArith NArith List String Floats Uint63 Lia.
From stdpp Require Import base list.
Import ListNotations.

Set Warnings "-inexact-float".
Local Open Scope N_scope.

(** ** Exceptions and results *)

Inductive exn : Set :=
  | TypeError          (* arithmetic, indexing or %d formatting of None *)
  | AttributeError     (* an attribute read before it was ever assigned *)
  | ZeroDivisionError
  | IndexError
  | KeyError
  | ValueError.

Definition result (A : Type) : Type := (exn + A)%type.

Definition ret {A} (a : A) : result A := inr a.
Definition raise {A} (e : exn) : result A := inl e.

Definition bind {A B} (m : result A) (k : A -> result B) : result B :=
  match m with
  | inl e => inl e
  | inr a => k a
  end.

Notation "'let*' x := m 'in' k" := (bind m (fun x => k))
  (at level 10, x name, m at level 100, k at level 200).

Definition returns {A} (m : result A) : Prop := exists a, m = inr a.
Definition raises {A} (m : result A) : Prop := exists e, m = inl e.

(** A Python operand that must not be [None]. *)
Definition need {A} (o : option A) : result A :=
  match o with
  | Some a => ret a
  | None => raise TypeError
  end.

(** ** Module-level constants *)

Definition REQ_LIVEUPDATE : Z := 63.
Definition MAX_POWER : float := 200%float.
Definition MAX_SWR : float := 5%float.

(** ** Floats *)

(** [int] to [float], as Python converts the integer operand of a mixed
    operation; exact below 2^53, and the program's operands are at most
    65535. *)
Definition N2float (n : N) : float :=
  PrimFloat.of_uint63 (Uint63.of_Z (Z.of_N n)).

(** Python's [x / y] on floats. *)
Definition fdiv (x y : float) : result float :=
  if PrimFloat.eqb y 0%float then raise ZeroDivisionError
  else ret (PrimFloat.div x y).

(** [math.sqrt]. *)
Definition math_sqrt (x : float) : result float :=
  if PrimFloat.ltb x 0%float then raise ValueError
  else ret (PrimFloat.sqrt x).

(** [min(1.0, frac)]: the first argument unless the second is smaller. *)
Definition min1 (frac : float) : float :=
  if PrimFloat.ltb frac 1%float then frac else 1%float.

(** ** The row of SWR threshold buttons ([BaseRadioButtons]) *)

Definition labels : list float :=
  [1.1; 1.3; 1.5; 1.7; 2.0; 2.5; 3.0]%float.

(** A button of the row is named by its position in [button_list]; its
    [the_value] is its label. [buttons] is the dictionary from value to
    button that [_AddRow] fills. *)
Definition button_list : list nat := seq 0 (length labels).

Definition the_value (b : nat) : option float := labels !! b.

Definition buttons : list (float * nat) := zip labels button_list.

Fixpoint dict_get (d : list (float * nat)) (k : float) : result nat :=
  match d with
  | [] => raise KeyError
  | (k', b) :: d' => if PrimFloat.eqb k' k then ret b else dict_get d' k
  end.

Fixpoint list_index (l : list nat) (b : nat) : result nat :=
  match l with
  | [] => raise ValueError
  | x :: l' => if Nat.eqb x b then ret 0%nat
               else (let* i := list_index l' b in ret (S i))
  end.

(** [DisplayIndex]: the value the row's variable is set to. *)
Definition DisplayIndex (index : option N) : result float :=
  let* i := need index in
  match button_list !! N.to_nat i with
  | None => raise IndexError
  | Some btn =>
      match the_value btn with
      | Some v => ret v
      | None => raise AttributeError
      end
  end.

(** [GetIndex], on the value held by the row's variable. *)
Definition GetIndex (var : float) : result nat :=
  let* btn := dict_get buttons var in
  list_index button_list btn.

(** ** Application state *)

(** What [NewData] puts on the screen. *)
Record Display : Type := {
  power_w : float;             (* 'Forw  %3.0fW' *)
  power_frac : float;          (* forward power bar *)
  refl_w : float;              (* 'Refl    %3.0f' *)
  refl_frac : float;
  swr_shown : option float;    (* 'SWR  %2.1f'; None: the bare text 'SWR' *)
  swr_frac : float;            (* SWR bar, 0 when the bar is emptied *)
  standby_text : string;
  antenna_text : string;
  btntune_text : string;
  hilow : string;
  freq_khz : float;
  induc : N;
  capac : N
}.

Record Application : Type := {
  rx_state : N;
  rx_byte1 : N;                (* read in state 3 only, assigned in state 1 *)
  rx_byte2 : N;                (* read in state 3 only, assigned in state 2 *)
  serial : bool;               (* self.serial is not None *)
  tune_status : string;
  param1 : list (option N);
  param2 : list (option N);
  is_standby : option N;       (* None: the attribute does not exist yet *)
  autotune : option N;         (* the value, which may be Python's None *)
  time0 : float;               (* main's local of the last request *)
  swr_var : option float;      (* variable of the threshold row *)
  display : option Display;    (* None: nothing drawn by NewData yet *)
  sent : list Z                (* bytes written to the port, oldest first *)
}.

(** The state [__init__] leaves, with the port opened by [main]. *)
Definition init : Application := {|
  rx_state := 0; rx_byte1 := 0; rx_byte2 := 0;
  serial := true;
  tune_status := "None";
  param1 := replicate 20 None;
  param2 := replicate 20 None;
  is_standby := None;
  autotune := None;
  time0 := 0%float;
  swr_var := None;
  display := None;
  sent := []
|}.

Definition set_rx (s b1 b2 : N) (a : Application) : Application :=
  {| rx_state := s; rx_byte1 := b1; rx_byte2 := b2;
     serial := serial a; tune_status := tune_status a;
     param1 := param1 a; param2 := param2 a;
     is_standby := is_standby a; autotune := autotune a;
     time0 := time0 a; swr_var := swr_var a; display := display a;
     sent := sent a |}.

Definition set_tune_status (s : string) (a : Application) : Application :=
  {| rx_state := rx_state a; rx_byte1 := rx_byte1 a; rx_byte2 := rx_byte2 a;
     serial := serial a; tune_status := s;
     param1 := param1 a; param2 := param2 a;
     is_standby := is_standby a; autotune := autotune a;
     time0 := time0 a; swr_var := swr_var a; display := display a;
     sent := sent a |}.

Definition set_param1 (p : list (option N)) (a : Application) : Application :=
  {| rx_state := rx_state a; rx_byte1 := rx_byte1 a; rx_byte2 := rx_byte2 a;
     serial := serial a; tune_status := tune_status a;
     param1 := p; param2 := param2 a;
     is_standby := is_standby a; autotune := autotune a;
     time0 := time0 a; swr_var := swr_var a; display := display a;
     sent := sent a |}.

Definition set_param2 (p : list (option N)) (a : Application) : Application :=
  {| rx_state := rx_state a; rx_byte1 := rx_byte1 a; rx_byte2 := rx_byte2 a;
     serial := serial a; tune_status := tune_status a;
     param1 := param1 a; param2 := p;
     is_standby := is_standby a; autotune := autotune a;
     time0 := time0 a; swr_var := swr_var a; display := display a;
     sent := sent a |}.

Definition set_is_standby (s : N) (a : Application) : Application :=
  {| rx_state := rx_state a; rx_byte1 := rx_byte1 a; rx_byte2 := rx_byte2 a;
     serial := serial a; tune_status := tune_status a;
     param1 := param1 a; param2 := param2 a;
     is_standby := Some s; autotune := autotune a;
     time0 := time0 a; swr_var := swr_var a; display := display a;
     sent := sent a |}.

Definition set_autotune (v : option N) (a : Application) : Application :=
  {| rx_state := rx_state a; rx_byte1 := rx_byte1 a; rx_byte2 := rx_byte2 a;
     serial := serial a; tune_status := tune_status a;
     param1 := param1 a; param2 := param2 a;
     is_standby := is_standby a; autotune := v;
     time0 := time0 a; swr_var := swr_var a; display := display a;
     sent := sent a |}.

Definition set_time0 (t : float) (a : Application) : Application :=
  {| rx_state := rx_state a; rx_byte1 := rx_byte1 a; rx_byte2 := rx_byte2 a;
     serial := serial a; tune_status := tune_status a;
     param1 := param1 a; param2 := param2 a;
     is_standby := is_standby a; autotune := autotune a;
     time0 := t; swr_var := swr_var a; display := display a;
     sent := sent a |}.

Definition set_swr_var (v : float) (a : Application) : Application :=
  {| rx_state := rx_state a; rx_byte1 := rx_byte1 a; rx_byte2 := rx_byte2 a;
     serial := serial a; tune_status := tune_status a;
     param1 := param1 a; param2 := param2 a;
     is_standby := is_standby a; autotune := autotune a;
     time0 := time0 a; swr_var := Some v; display := display a;
     sent := sent a |}.

Definition set_display (d : Display) (a : Application) : Application :=
  {| rx_state := rx_state a; rx_byte1 := rx_byte1 a; rx_byte2 := rx_byte2 a;
     serial := serial a; tune_status := tune_status a;
     param1 := param1 a; param2 := param2 a;
     is_standby := is_standby a; autotune := autotune a;
     time0 := time0 a; swr_var := swr_var a; display := Some d;
     sent := sent a |}.

Definition set_sent (s : list Z) (a : Application) : Application :=
  {| rx_state := rx_state a; rx_byte1 := rx_byte1 a; rx_byte2 := rx_byte2 a;
     serial := serial a; tune_status := tune_status a;
     param1 := param1 a; param2 := param2 a;
     is_standby := is_standby a; autotune := autotune a;
     time0 := time0 a; swr_var := swr_var a; display := display a;
     sent := s |}.

(** [self.param1[i]] for a constant index below 20: the stored value, where
    an index outside the list (it never is, see [store_length]) reads as
    unset. *)
Definition get (p : list (option N)) (i : nat) : option N :=
  match p !! i with
  | Some v => v
  | None => None
  end.

(** Python's truth value of a slot: false for [None] and for 0. *)
Definition truthy (v : option N) : bool :=
  match v with
  | Some n => negb (n =? 0)
  | None => false
  end.

(** ** Writing a command ([chr], [str.encode], [Write]) *)

Definition chr (c : Z) : result Z :=
  if ((0 <=? c) && (c <=? 1114111))%Z then ret c else raise ValueError.

(** UTF-8, which [s.encode()] produces; every code the program writes is
    below 128 and is one byte. *)
Definition encode (c : Z) : list Z :=
  if (c <? 128)%Z then [c]
  else if (c <? 2048)%Z then [192 + c / 64; 128 + c mod 64]%Z
  else if (c <? 65536)%Z then
    [224 + c / 4096; 128 + (c / 64) mod 64; 128 + c mod 64]%Z
  else [240 + c / 262144; 128 + (c / 4096) mod 64;
        128 + (c / 64) mod 64; 128 + c mod 64]%Z.

Definition Write (s : Z) (a : Application) : Application :=
  if serial a then set_sent (sent a ++ encode s) a else a.

(** ** Receiving: [Read] *)

Definition frame : Type := (N * N * N)%type.

(** The byte-position machine of the loop body of [Read]: the branch on
    [rx_state]. In state 3 the three bytes [byte1], [byte2], [byte3] of a
    block are complete; they are handed to [apply_frame], the rest of the
    loop body. *)
Definition rx_char (a : Application) (ch : N) : Application * option frame :=
  if rx_state a =? 0 then
    if ch =? 165 then (set_rx 1 (rx_byte1 a) (rx_byte2 a) a, None)
    else (a, None)
  else if rx_state a =? 1 then
    (set_rx 2 ch (rx_byte2 a) a, None)
  else if rx_state a =? 2 then
    (set_rx 3 (rx_byte1 a) ch a, None)
  else if rx_state a =? 3 then
    (set_rx 0 (rx_byte1 a) (rx_byte2 a) a, Some (rx_byte1 a, rx_byte2 a, ch))
  else (a, None).

(** The store: what the loop body does with a complete block. The boolean
    is true when [change = 1] is reached. *)
Definition apply_frame (a : Application) (f : frame) : Application * bool :=
  let '(byte1, byte2, byte3) := f in
  if 19 <? byte1 then (a, false)
  else
    let a1 :=
      if byte1 =? 9 then
        set_param2 (<[6%nat := None]> (param2 a)) (set_tune_status "OK" a)
      else if byte1 =? 10 then
        let a' :=
          if byte2 =? 0 then set_tune_status "No RF" a
          else if byte2 =? 1 then set_tune_status "Lost RF" a
          else if byte2 =? 2 then set_tune_status "High SWR" a
          else set_tune_status "Error" a in
        set_param2 (<[6%nat := None]> (param2 a')) a'
      else if byte1 =? 13 then set_is_standby 1 a
      else if byte1 =? 14 then set_is_standby 0 a
      else a in
    let a2 := set_param1 (<[N.to_nat byte1 := Some byte2]> (param1 a1)) a1 in
    let a3 := set_param2 (<[N.to_nat byte1 := Some byte3]> (param2 a2)) a2 in
    (a3, true).

Definition Read_char (st : Application * bool) (ch : N) : Application * bool :=
  let '(a, change) := st in
  match rx_char a ch with
  | (a', None) => (a', change)
  | (a', Some f) =>
      let '(a'', stored) := apply_frame a' f in
      (a'', change || stored)
  end.

(** [Read], on the characters the port returned. *)
Definition Read (chars : list N) (a : Application) : Application * bool :=
  fold_left Read_char chars (a, false).

(** The blocks completed while reading [chars]: the decoder alone. *)
Fixpoint frames (a : Application) (chars : list N) : list frame :=
  match chars with
  | [] => []
  | ch :: rest =>
      match rx_char a ch with
      | (a', None) => frames a' rest
      | (a', Some f) => f :: frames a' rest
      end
  end.

(** ** Refreshing the screen: [NewData] *)

(** [(self.param1[i] * 256 + self.param2[i])], which needs both values. *)
Definition word (a : Application) (i : nat) : result N :=
  let* hi := need (get (param1 a) i) in
  let* lo := need (get (param2 a) i) in
  ret (hi * 256 + lo).

(** The attribute [self.is_standby], which [__init__] does not create. *)
Definition read_is_standby (a : Application) : result N :=
  match is_standby a with
  | Some s => ret s
  | None => raise AttributeError
  end.

(** The SWR part of [NewData]: the value printed, if one is, and the
    fraction of the bar. *)
Definition swr_display (power : float) (swr : option N)
  : result (option float * float) :=
  match swr with
  | Some code =>
      if (2 <=? power)%float then
        let* rho := math_sqrt (N2float code / 256)%float in
        let* swr1 := fdiv (1 + rho)%float (1 - rho)%float in
        let swr2 := if (99.9 <? swr1)%float then 99.9%float else swr1 in
        let frac := ((swr2 - 1) / (MAX_SWR - 1))%float in
        ret (Some swr2, min1 frac)
      else ret (None, 0%float)
  | None => ret (None, 0%float)
  end.

(** The frequency of the status line. *)
Definition frequency (a : Application) : result float :=
  let* freq_code := word a 7 in
  fdiv 20480000%float (N2float freq_code).

(** An exception raised here leaves [main]: the state is returned only when
    the whole refresh went through. *)
Definition NewData (a : Application) : result Application :=
  let* p := word a 5 in
  let power := (N2float p / 100)%float in
  let* r := word a 18 in
  let refl := (N2float r / 100)%float in
  let* sw := swr_display power (get (param2 a) 6) in
  let* standby := read_is_standby a in
  let standby_text := if negb (standby =? 0) then "Standby"%string else "Active"%string in
  let antenna_text := if truthy (get (param1 a) 4) then "Ant 2"%string else "Ant 1"%string in
  let btntune_text :=
    if truthy (get (param1 a) 17) then "Auto ON"%string else "Auto OFF"%string in
  let* var := DisplayIndex (get (param1 a) 16) in
  let hilow := if truthy (get (param1 a) 3) then "Low Z"%string else "High Z"%string in
  let* freq_khz := frequency a in
  let* induc := need (get (param1 a) 1) in
  let* capac := need (get (param1 a) 2) in
  ret (set_swr_var var (set_display
    {| power_w := power; power_frac := min1 (power / MAX_POWER)%float;
       refl_w := refl; refl_frac := min1 (refl / MAX_POWER)%float;
       swr_shown := fst sw; swr_frac := snd sw;
       standby_text := standby_text; antenna_text := antenna_text;
       btntune_text := btntune_text; hilow := hilow;
       freq_khz := freq_khz; induc := induc; capac := capac |} a)).

(** ** The loops of [main] *)

(** Python's [x != y] on slots. *)
Definition py_ne (x y : option N) : bool :=
  match x, y with
  | Some m, Some n => negb (m =? n)
  | None, None => false
  | _, _ => true
  end.

(** The request of one pass of the handshake loop; [t1] and [t2] are the two
    readings of [time.time()]. *)
Definition handshake_select (t1 t2 : float) (a : Application)
  : Application * bool :=
  if py_ne (Some (Z.to_N (64 - REQ_LIVEUPDATE))) (get (param1 a) 19) then
    (Write REQ_LIVEUPDATE a, false)
  else match get (param2 a) 6 with
  | None =>
      if (1 <=? t1 - time0 a)%float then (Write 40 (set_time0 t2 a), false)
      else (a, false)
  | Some _ =>
      if py_ne (get (param1 a) 11) (Some 1) then (Write 41 a, false)
      else (a, true)     (* break *)
  end.

(** What follows the handshake loop: the user's wish starts as the reported
    AutoTune state, and the screen is drawn. *)
Definition enter_running (a : Application) : result Application :=
  let* a' := NewData (set_autotune (get (param1 a) 17) a) in
  ret (set_time0 0%float a').

(** The command of one pass of the steady-state loop. *)
Definition running_select (t1 t2 : float) (a : Application)
  : result Application :=
  match get (param2 a) 6 with
  | None =>
      if (1 <=? t1 - time0 a)%float then ret (Write 40 (set_time0 t2 a))
      else ret a
  | Some _ =>
      let* standby := read_is_standby a in
      if negb (standby =? 0) && py_ne (get (param1 a) 17) (Some 0) then
        ret (Write 59 a)                       (* Set autotune OFF *)
      else if (standby =? 0) && py_ne (autotune a) (get (param1 a) 17) then
        let* want := need (autotune a) in
        let* s := chr (59 - Z.of_N want) in
        ret (Write s a)
      else ret a
  end.

(** One pass of the steady-state loop. *)
Definition running_tick (t1 t2 : float) (chars : list N) (a : Application)
  : result Application :=
  let* a1 := running_select t1 t2 a in
  let '(a2, change) := Read chars a1 in
  if change then NewData a2 else ret a2.

(** ** The buttons *)

Definition OnButtonReq (req : Z) (a : Application) : Application :=
  Write req a.

Definition OnButtonHiLoZ (a : Application) : Application :=
  if truthy (get (param1 a) 3) then Write 8 a else Write 9 a.

Definition OnButtonAnt (value : bool) (a : Application) : Application :=
  if value then Write 11 a else Write 10 a.

Definition OnButtonStandby (value : bool) (a : Application) : Application :=
  let a' := if value then Write 44 a else Write 45 a in
  set_param2 (<[6%nat := None]> (param2 a')) a'.

Definition OnButtonAuto (value : bool) (a : Application) : Application :=
  if value then set_autotune (Some 0) a else set_autotune (Some 1) a.

Definition OnButtonSwr (a : Application) : result Application :=
  let* var := match swr_var a with
              | Some v => ret v
              | None => raise ValueError
              end in
  let* i := GetIndex var in
  let* s := chr (Z.of_nat i + 50) in
  ret (Write s a).

(** Pressing the [k]-th button of the threshold row: Tk stores the button's
    value in the row's variable and calls the command. *)
Definition press_swr (k : nat) (a : Application) : result Application :=
  match the_value k with
  | Some v => OnButtonSwr (set_swr_var v a)
  | None => raise IndexError
  end.

(** * Properties *)

(** ** The store *)

Definition store_ok (a : Application) : Prop :=
  length (param1 a) = 20%nat /\ length (param2 a) = 20%nat.

Lemma store_ok_init : store_ok init.
Proof. split; reflexivity. Qed.

Lemma apply_frame_dropped (a : Application) (byte1 byte2 byte3 : N) :
  19 < byte1 -> apply_frame a (byte1, byte2, byte3) = (a, false).
Proof.
  intros H. unfold apply_frame.
  destruct (N.ltb_spec 19 byte1) as [_|Hle]; [reflexivity | lia].
Qed.

Lemma apply_frame_param1 (a : Application) (byte1 byte2 byte3 : N) :
  param1 (fst (apply_frame a (byte1, byte2, byte3))) =
  if 19 <? byte1 then param1 a
  else <[N.to_nat byte1 := Some byte2]> (param1 a).
Proof.
  unfold apply_frame.
  destruct (19 <? byte1); [reflexivity|].
  destruct (byte1 =? 9); [reflexivity|].
  destruct (byte1 =? 10).
  - destruct (byte2 =? 0); [reflexivity|].
    destruct (byte2 =? 1); [reflexivity|].
    destruct (byte2 =? 2); reflexivity.
  - destruct (byte1 =? 13); [reflexivity|].
    destruct (byte1 =? 14); reflexivity.
Qed.

Lemma apply_frame_param2 (a : Application) (byte1 byte2 byte3 : N) :
  param2 (fst (apply_frame a (byte1, byte2, byte3))) =
  if 19 <? byte1 then param2 a
  else <[N.to_nat byte1 := Some byte3]>
         (if (byte1 =? 9) || (byte1 =? 10) then <[6%nat := None]> (param2 a)
          else param2 a).
Proof.
  unfold apply_frame.
  destruct (19 <? byte1); [reflexivity|].
  destruct (byte1 =? 9); [reflexivity|].
  destruct (byte1 =? 10).
  - destruct (byte2 =? 0); [reflexivity|].
    destruct (byte2 =? 1); [reflexivity|].
    destruct (byte2 =? 2); reflexivity.
  - destruct (byte1 =? 13); [reflexivity|].
    destruct (byte1 =? 14); reflexivity.
Qed.

Lemma apply_frame_rx (a : Application) (f : frame) :
  let a' := fst (apply_frame a f) in
  rx_state a' = rx_state a /\ rx_byte1 a' = rx_byte1 a /\
  rx_byte2 a' = rx_byte2 a.
Proof.
  destruct f as [[byte1 byte2] byte3]. unfold apply_frame.
  destruct (19 <? byte1); [simpl; auto|].
  destruct (byte1 =? 9); [simpl; auto|].
  destruct (byte1 =? 10).
  - destruct (byte2 =? 0); [simpl; auto|].
    destruct (byte2 =? 1); [simpl; auto|].
    destruct (byte2 =? 2); simpl; auto.
  - destruct (byte1 =? 13); [simpl; auto|].
    destruct (byte1 =? 14); simpl; auto.
Qed.

Lemma apply_frame_store_ok (a : Application) (f : frame) :
  store_ok a -> store_ok (fst (apply_frame a f)).
Proof.
  destruct f as [[byte1 byte2] byte3]. intros [H1 H2]. split.
  - rewrite apply_frame_param1. destruct (19 <? byte1); [exact H1|].
    rewrite length_insert. exact H1.
  - rewrite apply_frame_param2. destruct (19 <? byte1); [exact H2|].
    rewrite length_insert.
    destruct ((byte1 =? 9) || (byte1 =? 10)); [rewrite length_insert|];
      exact H2.
Qed.

Lemma rx_char_params (a : Application) (ch : N) :
  let a' := fst (rx_char a ch) in
  param1 a' = param1 a /\ param2 a' = param2 a /\
  is_standby a' = is_standby a /\ tune_status a' = tune_status a.
Proof.
  unfold rx_char.
  destruct (rx_state a =? 0); [destruct (ch =? 165); simpl; auto|].
  destruct (rx_state a =? 1); [simpl; auto|].
  destruct (rx_state a =? 2); [simpl; auto|].
  destruct (rx_state a =? 3); simpl; auto.
Qed.

Lemma Read_char_store_ok (st : Application * bool) (ch : N) :
  store_ok (fst st) -> store_ok (fst (Read_char st ch)).
Proof.
  destruct st as [a change]. unfold Read_char. simpl.
  intros Hok.
  pose proof (rx_char_params a ch) as Hp. simpl in Hp.
  destruct (rx_char a ch) as [a' [f|]]; simpl in *.
  - pose proof (apply_frame_store_ok a' f) as Hf.
    destruct (apply_frame a' f) as [a'' stored]. simpl in *.
    apply Hf. destruct Hp as (E1 & E2 & _). unfold store_ok.
    rewrite E1, E2. exact Hok.
  - destruct Hp as (E1 & E2 & _). unfold store_ok. rewrite E1, E2. exact Hok.
Qed.

Lemma fold_Read_char_store_ok (chars : list N) (st : Application * bool) :
  store_ok (fst st) -> store_ok (fst (fold_left Read_char chars st)).
Proof.
  revert st. induction chars as [|ch chars IH]; intros st Hok; simpl.
  - exact Hok.
  - apply IH. apply Read_char_store_ok. exact Hok.
Qed.

Lemma Read_store_ok (chars : list N) (a : Application) :
  store_ok a -> store_ok (fst (Read chars a)).
Proof. intros H. unfold Read. apply fold_Read_char_store_ok. exact H. Qed.

(** C7. A block whose first byte is above 19 is dropped whole: the store, the
    standby flag and the tune status (the whole state) stay as they were,
    no change is reported, and whatever is read, the two lists keep their
    20 entries, so that nothing is ever held at such an index. *)
Theorem C7_index_above_19_never_stored
  (a : Application) (byte1 byte2 byte3 : N) :
  19 < byte1 ->
  apply_frame a (byte1, byte2, byte3) = (a, false) /\
  (store_ok a -> forall chars : list N,
     param1 (fst (Read chars a)) !! N.to_nat byte1 = None /\
     param2 (fst (Read chars a)) !! N.to_nat byte1 = None).
Proof.
  intros H. split.
  - apply apply_frame_dropped. exact H.
  - intros Hok chars.
    destruct (Read_store_ok chars a Hok) as [H1 H2].
    split; apply lookup_ge_None_2; lia.
Qed.

Lemma C7_witness :
  19 < 20 /\
  (apply_frame init (20, 1, 2) = (init, false) /\
   (store_ok init -> forall chars : list N,
      param1 (fst (Read chars init)) !! N.to_nat 20 = None /\
      param2 (fst (Read chars init)) !! N.to_nat 20 = None)).
Proof.
  split; [reflexivity|].
  apply (C7_index_above_19_never_stored init 20 1 2). reflexivity.
Defined.

Lemma Application_ext (a b : Application) :
  rx_state a = rx_state b -> rx_byte1 a = rx_byte1 b ->
  rx_byte2 a = rx_byte2 b -> serial a = serial b ->
  tune_status a = tune_status b -> param1 a = param1 b ->
  param2 a = param2 b -> is_standby a = is_standby b ->
  autotune a = autotune b -> time0 a = time0 b -> swr_var a = swr_var b ->
  display a = display b -> sent a = sent b -> a = b.
Proof.
  destruct a, b. simpl. intros. subst. reflexivity.
Qed.

(** The tune status a block of index 10 reports. *)
Definition fail_status (byte2 : N) : string :=
  if byte2 =? 0 then "No RF"
  else if byte2 =? 1 then "Lost RF"
  else if byte2 =? 2 then "High SWR"
  else "Error".

Ltac frame_cases byte1 byte2 :=
  unfold apply_frame, fail_status;
  destruct (19 <? byte1);
  [|destruct (byte1 =? 9);
    [|destruct (byte1 =? 10);
      [destruct (byte2 =? 0);
       [|destruct (byte2 =? 1); [|destruct (byte2 =? 2)]]
      |destruct (byte1 =? 13); [|destruct (byte1 =? 14)]]]].

Lemma apply_frame_tune_status (a : Application) (byte1 byte2 byte3 : N) :
  tune_status (fst (apply_frame a (byte1, byte2, byte3))) =
  if 19 <? byte1 then tune_status a
  else if byte1 =? 9 then "OK"%string
  else if byte1 =? 10 then fail_status byte2
  else tune_status a.
Proof. frame_cases byte1 byte2; reflexivity. Qed.

Lemma apply_frame_is_standby (a : Application) (byte1 byte2 byte3 : N) :
  is_standby (fst (apply_frame a (byte1, byte2, byte3))) =
  if 19 <? byte1 then is_standby a
  else if byte1 =? 9 then is_standby a
  else if byte1 =? 10 then is_standby a
  else if byte1 =? 13 then Some 1
  else if byte1 =? 14 then Some 0
  else is_standby a.
Proof. frame_cases byte1 byte2; reflexivity. Qed.

Lemma apply_frame_change (a : Application) (byte1 byte2 byte3 : N) :
  snd (apply_frame a (byte1, byte2, byte3)) = negb (19 <? byte1).
Proof. frame_cases byte1 byte2; reflexivity. Qed.

Lemma apply_frame_others (a : Application) (byte1 byte2 byte3 : N) :
  let a' := fst (apply_frame a (byte1, byte2, byte3)) in
  serial a' = serial a /\ autotune a' = autotune a /\ time0 a' = time0 a /\
  swr_var a' = swr_var a /\ display a' = display a /\ sent a' = sent a.
Proof. intros a'. subst a'. frame_cases byte1 byte2; repeat split. Qed.

Lemma insert_twice_through (p : list (option N)) (i : nat) (x y : option N) :
  i <> 6%nat ->
  <[i := x]> (<[6%nat := y]> (<[i := x]> (<[6%nat := y]> p))) =
  <[i := x]> (<[6%nat := y]> p).
Proof.
  intros H.
  rewrite (list_insert_insert_ne (<[6%nat := y]> p) 6 i) by congruence.
  rewrite !list_insert_insert_eq. reflexivity.
Qed.

(** C8. Storing the same block twice leaves the state that storing it once
    leaves, and reports the same change; this includes the blocks 9 and 10,
    where clearing [param2[6]] is an overwrite. *)
Theorem C8_apply_frame_idempotent (a : Application) (f : frame) :
  apply_frame (fst (apply_frame a f)) f = apply_frame a f.
Proof.
  destruct f as [[byte1 byte2] byte3].
  apply injective_projections.
  - set (b := fst (apply_frame a (byte1, byte2, byte3))).
    destruct (apply_frame_rx b (byte1, byte2, byte3)) as (Es & E1 & E2).
    destruct (apply_frame_others b byte1 byte2 byte3)
      as (F1 & F2 & F3 & F4 & F5 & F6).
    apply Application_ext; try assumption.
    + rewrite apply_frame_tune_status. unfold b.
      rewrite apply_frame_tune_status.
      destruct (19 <? byte1); [reflexivity|].
      destruct (byte1 =? 9); [reflexivity|].
      destruct (byte1 =? 10); reflexivity.
    + rewrite apply_frame_param1. unfold b. rewrite apply_frame_param1.
      destruct (19 <? byte1); [reflexivity|].
      apply list_insert_insert_eq.
    + rewrite apply_frame_param2. unfold b. rewrite apply_frame_param2.
      destruct (19 <? byte1); [reflexivity|].
      destruct (N.eqb_spec byte1 9) as [->|N9];
        [apply insert_twice_through; discriminate|].
      destruct (N.eqb_spec byte1 10) as [->|N10];
        [apply insert_twice_through; discriminate|].
      apply list_insert_insert_eq.
    + rewrite apply_frame_is_standby. unfold b.
      rewrite apply_frame_is_standby.
      destruct (19 <? byte1); [reflexivity|].
      destruct (byte1 =? 9); [reflexivity|].
      destruct (byte1 =? 10); [reflexivity|].
      destruct (byte1 =? 13); [reflexivity|].
      destruct (byte1 =? 14); reflexivity.
  - rewrite !apply_frame_change. reflexivity.
Qed.

(** ** Which operations write to the store *)

(** The pairing as the specification words it, for the step from [a] to [a']
    that a block [f] causes: a slot of either list that differs afterwards
    is at the index of the block, and both slots of that index hold the
    values of the block. *)
Definition spec_pair_written (f : frame) (a a' : Application) : Prop :=
  let '(i, valueA, valueB) := f in
  forall j : nat,
    param1 a' !! j <> param1 a !! j \/ param2 a' !! j <> param2 a !! j ->
    j = N.to_nat i /\
    param1 a' !! j = Some (Some valueA) /\
    param2 a' !! j = Some (Some valueB).

(** The state after the block (6, 7, 64) alone. *)
Definition after_relays : Application := fst (Read [165; 6; 7; 64] init).

(** C5, as stated, fails: the tune-pass block (9, 0, 0) clears [param2[6]]
    and leaves [param1[6]] alone. *)
Lemma C5_partial_write :
  ~ spec_pair_written (9, 0, 0) after_relays
      (fst (apply_frame after_relays (9, 0, 0))).
Proof.
  intros H. destruct (H 6%nat) as [E _].
  - right. vm_compute. discriminate.
  - discriminate E.
Qed.

Lemma Write_params (s : Z) (a : Application) :
  param1 (Write s a) = param1 a /\ param2 (Write s a) = param2 a.
Proof. unfold Write. destruct (serial a); simpl; auto. Qed.

Lemma bind_inr {A B} (m : result A) (k : A -> result B) (b : B) :
  bind m k = inr b -> exists x, m = inr x /\ k x = inr b.
Proof. destruct m as [e|x]; simpl; [discriminate|]. eauto. Qed.

Lemma NewData_params (a a' : Application) :
  NewData a = inr a' ->
  param1 a' = param1 a /\ param2 a' = param2 a /\
  is_standby a' = is_standby a /\ sent a' = sent a.
Proof.
  unfold NewData. intros H.
  repeat (apply bind_inr in H; destruct H as (? & _ & H)).
  injection H as <-. simpl. auto.
Qed.

Lemma running_select_params (t1 t2 : float) (a a' : Application) :
  running_select t1 t2 a = inr a' ->
  param1 a' = param1 a /\ param2 a' = param2 a.
Proof.
  unfold running_select. intros H.
  destruct (get (param2 a) 6).
  - apply bind_inr in H. destruct H as (standby & _ & H).
    destruct (negb (standby =? 0) && py_ne (get (param1 a) 17) (Some 0)).
    { injection H as <-. apply Write_params. }
    destruct ((standby =? 0) && py_ne (autotune a) (get (param1 a) 17)).
    + apply bind_inr in H. destruct H as (want & _ & H).
      apply bind_inr in H. destruct H as (s & _ & H).
      injection H as <-. apply Write_params.
    + injection H as <-. auto.
  - destruct (PrimFloat.leb 1 (t1 - time0 a)); injection H as <-.
    + destruct (Write_params 40 (set_time0 t2 a)) as [-> ->]. auto.
    + auto.
Qed.

(** C5, as the program has it. A block with index at most 19 writes both
    slots of its index, from that block; the blocks 9 and 10 and the standby
    button moreover clear [param2[6]] without touching [param1[6]]; a block
    with a larger index, the decoder, the requests of both loops, the
    screen refresh and the other buttons write to neither list. *)
Theorem C5_writes_to_the_store :
  (forall (a : Application) (byte1 byte2 byte3 : N),
     let a' := fst (apply_frame a (byte1, byte2, byte3)) in
     param1 a' =
       (if 19 <? byte1 then param1 a
        else <[N.to_nat byte1 := Some byte2]> (param1 a)) /\
     param2 a' =
       (if 19 <? byte1 then param2 a
        else <[N.to_nat byte1 := Some byte3]>
               (if (byte1 =? 9) || (byte1 =? 10)
                then <[6%nat := None]> (param2 a) else param2 a))) /\
  (forall (value : bool) (a : Application),
     param1 (OnButtonStandby value a) = param1 a /\
     param2 (OnButtonStandby value a) = <[6%nat := None]> (param2 a)) /\
  (forall (a : Application) (ch : N),
     param1 (fst (rx_char a ch)) = param1 a /\
     param2 (fst (rx_char a ch)) = param2 a) /\
  (forall (t1 t2 : float) (a : Application),
     param1 (fst (handshake_select t1 t2 a)) = param1 a /\
     param2 (fst (handshake_select t1 t2 a)) = param2 a) /\
  (forall (t1 t2 : float) (a a' : Application),
     running_select t1 t2 a = inr a' ->
     param1 a' = param1 a /\ param2 a' = param2 a) /\
  (forall a a' : Application,
     NewData a = inr a' -> param1 a' = param1 a /\ param2 a' = param2 a) /\
  (forall (req : Z) (value : bool) (a : Application),
     (param1 (OnButtonReq req a) = param1 a /\
      param2 (OnButtonReq req a) = param2 a) /\
     (param1 (OnButtonHiLoZ a) = param1 a /\
      param2 (OnButtonHiLoZ a) = param2 a) /\
     (param1 (OnButtonAnt value a) = param1 a /\
      param2 (OnButtonAnt value a) = param2 a) /\
     (param1 (OnButtonAuto value a) = param1 a /\
      param2 (OnButtonAuto value a) = param2 a)) /\
  (forall a a' : Application,
     OnButtonSwr a = inr a' -> param1 a' = param1 a /\ param2 a' = param2 a).
Proof.
  repeat apply conj.
  - intros a byte1 byte2 byte3. split.
    + apply apply_frame_param1.
    + apply apply_frame_param2.
  - intros value a. unfold OnButtonStandby.
    destruct value; simpl;
      [destruct (Write_params 44 a) as [-> ->]
      |destruct (Write_params 45 a) as [-> ->]]; auto.
  - intros a ch. destruct (rx_char_params a ch) as (E1 & E2 & _). auto.
  - intros t1 t2 a. unfold handshake_select.
    destruct (py_ne _ (get (param1 a) 19)); [apply Write_params|].
    destruct (get (param2 a) 6).
    + destruct (py_ne (get (param1 a) 11) (Some 1));
        [apply Write_params | simpl; auto].
    + destruct (PrimFloat.leb 1 (t1 - time0 a)); simpl; auto.
      destruct (Write_params 40 (set_time0 t2 a)) as [-> ->]. auto.
  - apply running_select_params.
  - intros a a' H. apply NewData_params in H. tauto.
  - intros req value a. repeat apply conj.
    + apply Write_params.
    + apply Write_params.
    + unfold OnButtonHiLoZ. destruct (truthy _); apply Write_params.
    + unfold OnButtonHiLoZ. destruct (truthy _); apply Write_params.
    + unfold OnButtonAnt. destruct value; apply Write_params.
    + unfold OnButtonAnt. destruct value; apply Write_params.
    + unfold OnButtonAuto. destruct value; reflexivity.
    + unfold OnButtonAuto. destruct value; reflexivity.
  - intros a a' H. unfold OnButtonSwr in H.
    repeat (apply bind_inr in H; destruct H as (? & _ & H)).
    injection H as <-. apply Write_params.
Qed.

(** ** The decoder *)

(** How a byte sequence splits into blocks, read from the start of a block:
    a byte other than 165 is skipped, a 165 takes the next three bytes
    with it whatever they are, and a 165 with fewer than three bytes after
    it gives nothing yet. *)
Inductive framing : list N -> list frame -> Prop :=
  | framing_end : framing [] []
  | framing_skip (ch : N) (chars : list N) (fs : list frame) :
      ch <> 165 -> framing chars fs -> framing (ch :: chars) fs
  | framing_block (byte1 byte2 byte3 : N) (chars : list N) (fs : list frame) :
      framing chars fs ->
      framing (165 :: byte1 :: byte2 :: byte3 :: chars)
              ((byte1, byte2, byte3) :: fs)
  | framing_cut (tail : list N) :
      (length tail < 3)%nat -> framing (165 :: tail) [].

Lemma rx_char_0 (a : Application) (ch : N) :
  rx_state a = 0 ->
  rx_char a ch =
    if ch =? 165 then (set_rx 1 (rx_byte1 a) (rx_byte2 a) a, None)
    else (a, None).
Proof. intros E. unfold rx_char. rewrite E. reflexivity. Qed.

Lemma frames_block (a : Application) (byte1 byte2 byte3 : N) (chars : list N) :
  rx_state a = 0 ->
  exists a', rx_state a' = 0 /\
    frames a (165 :: byte1 :: byte2 :: byte3 :: chars) =
    (byte1, byte2, byte3) :: frames a' chars.
Proof.
  intros E.
  exists (set_rx 0 byte1 byte2 a). split; [reflexivity|].
  simpl. rewrite (rx_char_0 a 165 E). reflexivity.
Qed.

Lemma frames_skip (a : Application) (ch : N) (chars : list N) :
  rx_state a = 0 -> ch <> 165 -> frames a (ch :: chars) = frames a chars.
Proof.
  intros E H. simpl. rewrite (rx_char_0 a ch E).
  destruct (N.eqb_spec ch 165); [contradiction | reflexivity].
Qed.

Lemma frames_cut (a : Application) (tail : list N) :
  rx_state a = 0 -> (length tail < 3)%nat -> frames a (165 :: tail) = [].
Proof.
  intros E H. simpl. rewrite (rx_char_0 a 165 E). simpl.
  destruct tail as [|b1 [|b2 [|b3 tail]]]; simpl in *; try reflexivity; lia.
Qed.

Lemma frames_framing_bounded (n : nat) :
  forall (chars : list N) (a : Application),
    (length chars <= n)%nat -> rx_state a = 0 ->
    framing chars (frames a chars).
Proof.
  induction n as [|n IH]; intros chars a Hlen E.
  - destruct chars; [constructor | simpl in Hlen; lia].
  - destruct chars as [|ch chars]; [constructor|].
    destruct (N.eq_dec ch 165) as [->|Hne].
    + destruct chars as [|b1 [|b2 [|b3 chars]]].
      * rewrite frames_cut; [|exact E|simpl; lia].
        apply framing_cut. simpl; lia.
      * rewrite frames_cut; [|exact E|simpl; lia].
        apply framing_cut. simpl; lia.
      * rewrite frames_cut; [|exact E|simpl; lia].
        apply framing_cut. simpl; lia.
      * destruct (frames_block a b1 b2 b3 chars E) as (a' & E' & ->).
        apply framing_block. apply IH; [simpl in Hlen; lia | exact E'].
    + rewrite frames_skip by assumption.
      apply framing_skip; [exact Hne|]. apply IH; [simpl in Hlen; lia | exact E].
Qed.

Lemma frames_framing (chars : list N) (a : Application) :
  rx_state a = 0 -> framing chars (frames a chars).
Proof. apply (frames_framing_bounded (length chars)). lia. Qed.

Lemma framing_window (chars : list N) (fs : list frame) :
  framing chars fs ->
  forall byte1 byte2 byte3 : N, In (byte1, byte2, byte3) fs ->
  exists pre post : list N,
    chars = pre ++ 165 :: byte1 :: byte2 :: byte3 :: post.
Proof.
  induction 1 as [|ch chars fs Hne _ IH|b1 b2 b3 chars fs _ IH|tail Hlen];
    intros byte1 byte2 byte3 Hin.
  - destruct Hin.
  - destruct (IH _ _ _ Hin) as (pre & post & ->).
    exists (ch :: pre), post. reflexivity.
  - destruct Hin as [Heq|Hin].
    + injection Heq as -> -> ->. exists [], chars. reflexivity.
    + destruct (IH _ _ _ Hin) as (pre & post & ->).
      exists (165 :: b1 :: b2 :: b3 :: pre), post. reflexivity.
  - destruct Hin.
Qed.

Lemma framing_length (chars : list N) (fs : list frame) :
  framing chars fs -> (4 * length fs <= length chars)%nat.
Proof. induction 1; simpl in *; lia. Qed.

Lemma frames_noise (noise rest : list N) (a : Application) :
  rx_state a = 0 -> Forall (fun ch => ch <> 165) noise ->
  frames a (noise ++ rest) = frames a rest.
Proof.
  intros E H. induction H as [|ch noise Hne _ IH]; [reflexivity|].
  simpl app. rewrite frames_skip by assumption. exact IH.
Qed.

(** The decoder and the store together are [Read]: the state after reading
    is the state after storing the decoded blocks in turn, up to the
    decoder's own three fields. *)
Definition store_all (a : Application) (fs : list frame) : Application :=
  fold_left (fun a f => fst (apply_frame a f)) fs a.

Definition same_device (a b : Application) : Prop :=
  param1 a = param1 b /\ param2 a = param2 b /\
  is_standby a = is_standby b /\ tune_status a = tune_status b.

Lemma apply_frame_same_device (a b : Application) (f : frame) :
  same_device a b ->
  same_device (fst (apply_frame a f)) (fst (apply_frame b f)) /\
  snd (apply_frame a f) = snd (apply_frame b f).
Proof.
  destruct f as [[byte1 byte2] byte3].
  intros (E1 & E2 & E3 & E4). unfold apply_frame, same_device.
  destruct (19 <? byte1); [simpl; auto|].
  destruct (byte1 =? 9); [simpl; rewrite E1, E2, E3; auto|].
  destruct (byte1 =? 10).
  - destruct (byte2 =? 0); [simpl; rewrite E1, E2, E3; auto|].
    destruct (byte2 =? 1); [simpl; rewrite E1, E2, E3; auto|].
    destruct (byte2 =? 2); simpl; rewrite E1, E2, E3; auto.
  - destruct (byte1 =? 13); [simpl; rewrite E1, E2; auto|].
    destruct (byte1 =? 14); simpl; rewrite E1, E2, ?E3, ?E4; auto.
Qed.

Lemma same_device_refl (a : Application) : same_device a a.
Proof. unfold same_device. auto. Qed.

Lemma store_all_same_device (fs : list frame) :
  forall a b, same_device a b -> same_device (store_all a fs) (store_all b fs).
Proof.
  induction fs as [|f fs IH]; intros a b H; simpl; [exact H|].
  apply IH. apply apply_frame_same_device. exact H.
Qed.

Lemma rx_char_same_device (a : Application) (ch : N) :
  same_device (fst (rx_char a ch)) a.
Proof. apply rx_char_params. Qed.

Lemma same_device_trans (a b c : Application) :
  same_device a b -> same_device b c -> same_device a c.
Proof.
  unfold same_device. intros (?&?&?&?) (?&?&?&?).
  repeat split; congruence.
Qed.

Definition same_rx (a b : Application) : Prop :=
  rx_state a = rx_state b /\ rx_byte1 a = rx_byte1 b /\
  rx_byte2 a = rx_byte2 b.

Lemma rx_char_same_rx (a b : Application) (ch : N) :
  same_rx a b ->
  snd (rx_char a ch) = snd (rx_char b ch) /\
  same_rx (fst (rx_char a ch)) (fst (rx_char b ch)).
Proof.
  intros (Es & E1 & E2). unfold rx_char, same_rx. rewrite Es, E1, E2.
  destruct (rx_state b =? 0); [destruct (ch =? 165); simpl; auto|].
  destruct (rx_state b =? 1); [simpl; auto|].
  destruct (rx_state b =? 2); [simpl; auto|].
  destruct (rx_state b =? 3); simpl; auto.
Qed.

Lemma fold_Read_char_frames (chars : list N) :
  forall (a r d : Application) (change : bool),
    same_rx a r -> same_device a d ->
    same_device (fst (fold_left Read_char chars (a, change)))
                (store_all d (frames r chars)).
Proof.
  induction chars as [|ch chars IH]; intros a r d change Hr Hd;
    [exact Hd|].
  simpl fold_left. simpl frames.
  destruct (rx_char_same_rx a r ch Hr) as [Eo Hr'].
  pose proof (rx_char_same_device a ch) as Ha.
  destruct (rx_char a ch) as [a' oa], (rx_char r ch) as [r' or].
  simpl in Eo, Hr', Ha. subst or.
  assert (Hd' : same_device a' d) by (eapply same_device_trans; eassumption).
  destruct oa as [f|].
  - destruct (apply_frame_same_device a' d f Hd') as [Hf _].
    pose proof (apply_frame_rx a' f) as Hra.
    destruct (apply_frame a' f) as [a'' stored]. simpl in Hf, Hra.
    simpl store_all. apply IH; [|exact Hf].
    destruct Hra as (Es & E1 & E2), Hr' as (Fs & F1 & F2).
    unfold same_rx. rewrite Es, E1, E2. auto.
  - apply IH; assumption.
Qed.

(** [Read] stores the blocks the decoder completes, in order. *)
Lemma Read_frames (chars : list N) (a : Application) :
  same_device (fst (Read chars a)) (store_all a (frames a chars)).
Proof.
  unfold Read. apply fold_Read_char_frames.
  - unfold same_rx. auto.
  - apply same_device_refl.
Qed.

Lemma framing_functional (chars : list N) (fs : list frame) :
  framing chars fs -> forall fs', framing chars fs' -> fs = fs'.
Proof.
  induction 1 as [|ch chars fs Hne _ IH|b1 b2 b3 chars fs _ IH|tail Hlen];
    intros fs' H'.
  - inversion H'. reflexivity.
  - inversion H'; subst; try contradiction. apply IH. assumption.
  - inversion H' as [|? ? ? Hne|? ? ? ? ? Hrest|? Hlen]; subst.
    + contradiction.
    + f_equal. apply IH. exact Hrest.
    + simpl in Hlen. lia.
  - inversion H' as [|? ? ? Hne|? ? ? ? ? Hrest|? Hlen']; subst.
    + contradiction.
    + simpl in Hlen. lia.
    + reflexivity.
Qed.

(** From the start of a block the decoder's output depends on the bytes
    alone. *)
Lemma frames_from_sync (a b : Application) (chars : list N) :
  rx_state a = 0 -> rx_state b = 0 -> frames a chars = frames b chars.
Proof.
  intros Ea Eb.
  apply (framing_functional chars); apply frames_framing; assumption.
Qed.

(** The second half of C4 in the specification's words, at its weakest: the
    triple of a well-formed block is still decoded when [noise] comes first. *)
Definition spec_noise_immune (noise : list N) (i valueA valueB : N) : Prop :=
  In (i, valueA, valueB) (frames init (noise ++ [165; i; valueA; valueB])).

(** C4, as stated, fails: a noise byte 165 takes the sync byte of the block
    that follows as a parameter index, and the block (5, 10, 0) is lost. *)
Lemma C4_noise_corrupts_block : ~ spec_noise_immune [165] 5 10 0.
Proof.
  unfold spec_noise_immune.
  change (frames init ([165] ++ [165; 5; 10; 0])) with [(165, 5, 10)].
  intros [H|[]]. discriminate H.
Qed.

(** C4, as the program has it. Started at the first byte of a block, the
    decoder splits its input as [framing] says; so every triple it emits is
    a sync byte 165 and the three bytes after it in the input, four input
    bytes are consumed per triple, and a well-formed block that follows
    noise is decoded unchanged when no noise byte is 165. *)
Theorem C4_decoder_framing (a : Application) (chars : list N) :
  rx_state a = 0 ->
  framing chars (frames a chars) /\
  (forall byte1 byte2 byte3 : N,
     In (byte1, byte2, byte3) (frames a chars) ->
     exists pre post : list N,
       chars = pre ++ 165 :: byte1 :: byte2 :: byte3 :: post) /\
  (4 * length (frames a chars) <= length chars)%nat /\
  (forall (noise : list N) (i valueA valueB : N),
     Forall (fun ch => ch <> 165) noise ->
     frames a (noise ++ [165; i; valueA; valueB] ++ chars) =
     (i, valueA, valueB) :: frames a chars).
Proof.
  intros E. pose proof (frames_framing chars a E) as Hf.
  split; [exact Hf|]. split; [|split].
  - apply (framing_window chars). exact Hf.
  - apply framing_length. exact Hf.
  - intros noise i valueA valueB Hnoise.
    rewrite frames_noise by assumption.
    change ([165; i; valueA; valueB] ++ chars)
      with (165 :: i :: valueA :: valueB :: chars).
    destruct (frames_block a i valueA valueB chars E) as (a' & E' & ->).
    f_equal. apply frames_from_sync; assumption.
Qed.

Lemma C4_witness :
  rx_state init = 0 /\
  frames init ([7; 9] ++ [165; 5; 10; 0] ++ [3]) = (5, 10, 0) :: frames init [3].
Proof.
  split; [reflexivity|].
  apply (C4_decoder_framing init [3]); [reflexivity|].
  repeat constructor; discriminate.
Defined.

(** ** The AutoTune requests of the steady-state loop *)

(** Section 6 of the specification, in its words: "58/59=auto-tune
    disable/enable". The program has it the other way round: the byte its
    standby branch writes to switch AutoTune off is 59. *)
Definition spec6_autotune_disable : Z := 58.
Definition spec6_autotune_enable : Z := 59.

(** The last sentence of C1 in the specification's words, for the byte sent
    when the wish is [want]. *)
Definition spec_matches_wish (want : N) (byte : Z) : Prop :=
  (want <> 0 -> byte = spec6_autotune_enable) /\
  (want = 0 -> byte = spec6_autotune_disable).

Lemma sent_Write (s : Z) (a : Application) :
  serial a = true -> sent (Write s a) = sent a ++ encode s.
Proof. intros E. unfold Write. rewrite E. reflexivity. Qed.

(** The device is active with AutoTune off, the relay settings are in, and
    the user has released the Auto button: AutoTune is wanted on. *)
Definition wants_auto_on : Application :=
  OnButtonAuto false
    (fst (Read [165; 17; 0; 0; 165; 14; 0; 0; 165; 6; 0; 64] init)).

(** C1, as stated, fails: with AutoTune wanted on, the byte sent is 58, which
    section 6 of the specification calls the disable command. *)
Lemma C1_wish_on_sends_58 :
  autotune wants_auto_on = Some 1 /\
  (exists a', running_select 0 0 wants_auto_on = inr a' /\
              sent a' = [spec6_autotune_disable]) /\
  ~ spec_matches_wish 1 spec6_autotune_disable.
Proof.
  split; [reflexivity|]. split.
  - eexists. split; reflexivity.
  - intros [H _]. discriminate H. discriminate.
Qed.

(** C1, as the program has it. In the steady-state loop, with the relay
    settings in, the device active and the wish (0 or 1) different from the
    reported AutoTune flag, the one byte 59 - wish is written: 58 when
    AutoTune is wanted on and 59, the byte of the standby branch's "Set
    autotune OFF", when it is wanted off. *)
Theorem C1_autotune_request
  (t1 t2 : float) (a : Application) (relays want : N) :
  serial a = true ->
  get (param2 a) 6 = Some relays ->
  is_standby a = Some 0 ->
  autotune a = Some want ->
  want <= 1 ->
  py_ne (Some want) (get (param1 a) 17) = true ->
  exists a' : Application,
    running_select t1 t2 a = inr a' /\
    sent a' = sent a ++ [(59 - Z.of_N want)%Z] /\
    (want = 1 -> sent a' = sent a ++ [58%Z]) /\
    (want = 0 -> sent a' = sent a ++ [59%Z]).
Proof.
  intros Hs H6 Hst Hw Hle Hne.
  exists (Write (59 - Z.of_N want) a).
  assert (Hsent : sent (Write (59 - Z.of_N want) a) =
                  sent a ++ [(59 - Z.of_N want)%Z]).
  { rewrite sent_Write by exact Hs. unfold encode.
    destruct (Z.ltb_spec (59 - Z.of_N want) 128); [reflexivity | lia]. }
  split; [|split; [exact Hsent|split; intros ->; exact Hsent]].
  unfold running_select, read_is_standby. rewrite H6, Hst, Hw. simpl bind.
  unfold py_ne in Hne. rewrite Hne. unfold chr.
  destruct (Z.leb_spec 0 (59 - Z.of_N want)); [|lia].
  destruct (Z.leb_spec (59 - Z.of_N want) 1114111); [|lia].
  reflexivity.
Qed.

Lemma C1_witness :
  exists a' : Application,
    running_select 0 0 wants_auto_on = inr a' /\
    sent a' = sent wants_auto_on ++ [(59 - Z.of_N 1)%Z] /\
    (1 = 1 -> sent a' = sent wants_auto_on ++ [58%Z]) /\
    (1 = 0 -> sent a' = sent wants_auto_on ++ [59%Z]).
Proof.
  apply (C1_autotune_request 0 0 wants_auto_on 64 1); reflexivity || (intros H; discriminate H).
Defined.

(** The device is in standby with AutoTune on and the relay settings in. *)
Definition standby_auto_on : Application :=
  fst (Read [165; 17; 1; 0; 165; 13; 0; 0; 165; 6; 0; 64] init).

(** C2, as stated, fails: the byte written in standby is 59, not the 58 that
    section 6 of the specification calls the disable command. *)
Lemma C2_standby_sends_59 :
  exists a', running_select 0 0 standby_auto_on = inr a' /\
             sent a' = [59%Z] /\
             sent a' <> [spec6_autotune_disable].
Proof.
  eexists. split; [reflexivity|]. split; [reflexivity|]. discriminate.
Qed.

(** C2, as the program has it. In the steady-state loop, with the relay
    settings in, the device in standby and a reported AutoTune flag other
    than 0, the byte 59 ("Set autotune OFF") is written, whatever the user's
    wish is. *)
Theorem C2_standby_request
  (t1 t2 : float) (a : Application) (relays standby : N)
  (want : option N) :
  serial a = true ->
  get (param2 a) 6 = Some relays ->
  is_standby a = Some standby ->
  standby <> 0 ->
  py_ne (get (param1 a) 17) (Some 0) = true ->
  exists a' : Application,
    running_select t1 t2 (set_autotune want a) = inr a' /\
    sent a' = sent a ++ [59%Z].
Proof.
  intros Hs H6 Hst Hnz Hne.
  exists (Write 59 (set_autotune want a)). split.
  - unfold running_select, read_is_standby.
    change (param2 (set_autotune want a)) with (param2 a).
    change (param1 (set_autotune want a)) with (param1 a).
    change (is_standby (set_autotune want a)) with (is_standby a).
    rewrite H6, Hst. simpl bind.
    destruct (N.eqb_spec standby 0) as [E|_]; [contradiction|].
    simpl negb. rewrite Hne. reflexivity.
  - rewrite sent_Write by exact Hs. reflexivity.
Qed.

Lemma C2_witness :
  exists a' : Application,
    running_select 0 0 (set_autotune (Some 1) standby_auto_on) = inr a' /\
    sent a' = sent standby_auto_on ++ [59%Z].
Proof.
  apply (C2_standby_request 0 0 standby_auto_on 64 1 (Some 1));
    reflexivity || discriminate.
Defined.

(** ** The SWR threshold row *)

(** C9. For each index [k] from 0 to 6, pressing the [k]-th threshold button
    writes the one byte 50 + k, and a reported [param1[16] = k] makes
    [NewData] show the [k]-th of the labels 1.1, 1.3, 1.5, 1.7, 2.0, 2.5,
    3.0, which is the button the index came from. *)
Theorem C9_threshold_round_trip (k : N) :
  k <= 6 ->
  (forall a : Application, serial a = true ->
     exists a' : Application,
       press_swr (N.to_nat k) a = inr a' /\
       sent a' = sent a ++ [(50 + Z.of_N k)%Z]) /\
  (exists v : float,
     labels !! N.to_nat k = Some v /\
     DisplayIndex (Some k) = inr v /\
     GetIndex v = inr (N.to_nat k) /\
     forall a a' : Application,
       get (param1 a) 16 = Some k -> NewData a = inr a' ->
       swr_var a' = Some v).
Proof.
  intros Hk.
  assert (Hcases : k = 0 \/ k = 1 \/ k = 2 \/ k = 3 \/ k = 4 \/ k = 5 \/ k = 6)
    by lia.
  split.
  - intros a Hs.
    assert (Hpress : forall (v : float) (i : nat),
              the_value (N.to_nat k) = Some v -> GetIndex v = inr i ->
              i = N.to_nat k ->
              exists a', press_swr (N.to_nat k) a = inr a' /\
                         sent a' = sent a ++ [(50 + Z.of_N k)%Z]).
    { intros v i Hv Hi ->. unfold press_swr. rewrite Hv.
      unfold OnButtonSwr. change (swr_var (set_swr_var v a)) with (Some v).
      simpl bind at 1. rewrite Hi. simpl bind at 1.
      unfold chr.
      destruct (Z.leb_spec 0 (Z.of_nat (N.to_nat k) + 50)); [|lia].
      destruct (Z.leb_spec (Z.of_nat (N.to_nat k) + 50) 1114111); [|lia].
      simpl bind. eexists. split; [reflexivity|].
      rewrite sent_Write by exact Hs.
      change (sent (set_swr_var v a)) with (sent a). f_equal.
      unfold encode.
      destruct (Z.ltb_spec (Z.of_nat (N.to_nat k) + 50) 128); [|lia].
      f_equal. lia. }
    destruct Hcases as [->|[->|[->|[->|[->|[->| ->]]]]]];
      eapply Hpress; reflexivity.
  - assert (Hshow : forall v : float,
              DisplayIndex (Some k) = inr v ->
              forall a a' : Application,
                get (param1 a) 16 = Some k -> NewData a = inr a' ->
                swr_var a' = Some v).
    { intros v Hv a a' H16 H. unfold NewData in H.
      repeat match type of H with
             | bind ?m _ = inr _ =>
                 destruct m eqn:?; [discriminate H | cbn [bind] in H]
             end.
      injection H as <-.
      match goal with
      | E : DisplayIndex _ = inr _ |- _ => rewrite H16, Hv in E; injection E as <-
      end.
      reflexivity. }
    destruct Hcases as [->|[->|[->|[->|[->|[->| ->]]]]]];
      eexists; (split; [reflexivity|]); (split; [reflexivity|]);
      (split; [reflexivity|]); apply Hshow; reflexivity.
Qed.

Lemma C9_witness :
  6 <= 6 /\
  (exists a' : Application,
     press_swr (N.to_nat 6) init = inr a' /\
     sent a' = sent init ++ [(50 + Z.of_N 6)%Z]).
Proof.
  split; [discriminate|].
  apply (C9_threshold_round_trip 6); [discriminate | reflexivity].
Defined.

(** ** The arithmetic of [NewData] *)

(** Checking a boolean property of every number from [n] on, [fuel] of
    them: the float facts below are decided by running the program's
    arithmetic on every byte, or every 16-bit code. *)
Fixpoint all_from (fuel : nat) (n : N) (P : N -> bool) : bool :=
  match fuel with
  | O => true
  | S fuel' => P n && all_from fuel' (N.succ n) P
  end.

Lemma all_from_spec (fuel : nat) :
  forall (n : N) (P : N -> bool),
    all_from fuel n P = true ->
    forall m : N, n <= m -> m < n + N.of_nat fuel -> P m = true.
Proof.
  induction fuel as [|fuel IH]; intros n P H m Hle Hlt.
  - simpl in Hlt. lia.
  - simpl in H. apply andb_prop in H. destruct H as [Hn Hrest].
    destruct (N.eq_dec m n) as [->|Hne]; [exact Hn|].
    apply (IH (N.succ n) P Hrest); lia.
Qed.

(** The SWR of the specification, in its words: rho = sqrt(slotB[6] /
    256.0), swr = (1 + rho) / (1 - rho), clamped to at most 99.9. *)
Definition spec_swr (code : N) : float :=
  let rho := PrimFloat.sqrt (N2float code / 256)%float in
  let swr := ((1 + rho) / (1 - rho))%float in
  if (99.9 <? swr)%float then 99.9%float else swr.

Definition swr_code_ok (code : N) : bool :=
  negb (N2float code / 256 <? 0)%float &&
  negb (1 - PrimFloat.sqrt (N2float code / 256) =? 0)%float &&
  (spec_swr code <=? 99.9)%float &&
  (1 <=? spec_swr code)%float.

Lemma swr_codes_ok (code : N) : code < 256 -> swr_code_ok code = true.
Proof.
  intros H.
  apply (all_from_spec (N.to_nat 256) 0 swr_code_ok); [|lia|lia].
  vm_compute. reflexivity.
Qed.

Lemma NewData_display (a a' : Application) :
  NewData a = inr a' ->
  exists (d : Display) (fwd : N),
    display a' = Some d /\
    word a 5 = inr fwd /\
    power_w d = (N2float fwd / 100)%float /\
    swr_display (power_w d) (get (param2 a) 6) =
      inr (swr_shown d, swr_frac d) /\
    frequency a = inr (freq_khz d).
Proof.
  unfold NewData. intros H.
  repeat match type of H with
         | bind ?m _ = inr _ =>
             destruct m eqn:?; [discriminate H | cbn [bind] in H]
         end.
  injection H as <-.
  match goal with p : (option float * float)%type |- _ => destruct p end.
  eexists. eexists.
  split; [reflexivity|]. split; [reflexivity|]. split; [reflexivity|].
  split.
  - match goal with E : swr_display _ _ = _ |- _ => exact E end.
  - reflexivity.
Qed.

(** C6. The SWR is shown only when the forward power is at least 2.0 W and
    [param2[6]] is set; it is then (1 + rho) / (1 - rho) for rho =
    sqrt(param2[6] / 256.0), clamped to 99.9 (and it lies between 1 and
    99.9 for every byte); a code of 0 gives exactly 1.0; below 2.0 W, or
    with [param2[6]] unset, the bare text 'SWR' is shown, whatever
    [param2[6]] holds. The screen [NewData] draws has the forward power
    (param1[5] * 256 + param2[5]) / 100.0 and this SWR. *)
Theorem C6_swr_display (power : float) (code : N) :
  code < 256 ->
  ((2 <=? power)%float = true ->
   (exists frac : float,
      swr_display power (Some code) = inr (Some (spec_swr code), frac)) /\
   (spec_swr code <=? 99.9)%float = true /\
   (1 <=? spec_swr code)%float = true /\
   exists frac : float, swr_display power (Some 0) = inr (Some 1%float, frac)) /\
  ((2 <=? power)%float = false ->
   forall swr : option N, swr_display power swr = inr (None, 0%float)) /\
  swr_display power None = inr (None, 0%float) /\
  (forall a a' : Application,
     NewData a = inr a' ->
     exists (d : Display) (fwd : N),
       display a' = Some d /\
       word a 5 = inr fwd /\
       power_w d = (N2float fwd / 100)%float /\
       swr_display (power_w d) (get (param2 a) 6) =
         inr (swr_shown d, swr_frac d)).
Proof.
  intros Hcode.
  assert (Hshown : forall c : N, c < 256 -> (2 <=? power)%float = true ->
            exists frac : float,
              swr_display power (Some c) = inr (Some (spec_swr c), frac)).
  { intros c Hc Hp. pose proof (swr_codes_ok c Hc) as Hok.
    unfold swr_code_ok in Hok.
    apply andb_prop in Hok. destruct Hok as [Hok _].
    apply andb_prop in Hok. destruct Hok as [Hok _].
    apply andb_prop in Hok. destruct Hok as [Hneg Hden].
    apply negb_true_iff in Hneg. apply negb_true_iff in Hden.
    unfold swr_display, math_sqrt, fdiv. rewrite Hp, Hneg.
    cbn [bind ret]. rewrite Hden. cbn [bind ret].
    eexists. reflexivity. }
  split; [|split; [|split]].
  - intros Hp. pose proof (swr_codes_ok code Hcode) as Hok.
    unfold swr_code_ok in Hok.
    apply andb_prop in Hok. destruct Hok as [Hok Hone].
    apply andb_prop in Hok. destruct Hok as [_ Hmax].
    split; [apply Hshown; assumption|].
    split; [exact Hmax|]. split; [exact Hone|].
    destruct (Hshown 0) as [frac Hfrac]; [lia | exact Hp |].
    exists frac. exact Hfrac.
  - intros Hp swr. unfold swr_display. rewrite Hp.
    destruct swr; reflexivity.
  - reflexivity.
  - intros a a' H. destruct (NewData_display a a' H)
      as (d & fwd & Hd & Hw & Hpw & Hswr & _).
    exists d, fwd. auto.
Qed.

Lemma C6_witness :
  255 < 256 /\
  (forall swr : option N, swr_display 1.99%float swr = inr (None, 0%float)).
Proof.
  split; [reflexivity|].
  apply (C6_swr_display 1.99%float 255); reflexivity.
Defined.

(** ** The frequency of the status line *)

Lemma freq_codes_ok (n : N) :
  0 < n -> n < 65536 -> (N2float n =? 0)%float = false.
Proof.
  intros Hpos Hlt. apply negb_true_iff.
  apply (all_from_spec (N.to_nat 65535) 1
           (fun n => negb (N2float n =? 0)%float)); [|lia|lia].
  vm_compute. reflexivity.
Qed.

Lemma word_inr (a : Application) (i : nat) (w : N) :
  word a i = inr w ->
  exists hi lo : N,
    get (param1 a) i = Some hi /\ get (param2 a) i = Some lo /\
    w = hi * 256 + lo.
Proof.
  unfold word. intros H.
  destruct (get (param1 a) i) as [hi|]; [|discriminate H].
  destruct (get (param2 a) i) as [lo|]; [|discriminate H].
  injection H as <-. exists hi, lo. auto.
Qed.

Lemma word_set (a : Application) (i : nat) (hi lo : N) :
  get (param1 a) i = Some hi -> get (param2 a) i = Some lo ->
  word a i = inr (hi * 256 + lo).
Proof. intros H1 H2. unfold word. rewrite H1, H2. reflexivity. Qed.

Lemma NewData_raises_with_frequency (a : Application) (e : exn) :
  frequency a = inl e -> raises (NewData a).
Proof.
  unfold NewData, raises. intros H.
  repeat match goal with
         | |- exists e, bind ?m _ = inl e =>
             destruct m eqn:?;
               [eexists; reflexivity | try discriminate H; cbn [bind]]
         end.
Qed.

(** A complete report of the device, with the two bytes of the frequency
    code left open: inductance 3, capacitance 4, high impedance, antenna 2,
    25.6 W forward and 0.5 W reflected, threshold 1.5, AutoTune on, active,
    live updates on, version answered, SWR code 64. *)
Definition full_update (freq_hi freq_lo : N) : list N :=
  [165; 1; 3; 0;   165; 2; 4; 0;   165; 3; 0; 0;   165; 4; 1; 0;
   165; 5; 10; 0;  165; 7; freq_hi; freq_lo;       165; 16; 2; 0;
   165; 17; 1; 0;  165; 18; 0; 50; 165; 14; 0; 0;  165; 19; 1; 0;
   165; 11; 1; 0;  165; 6; 0; 64].

(** C3, as stated, fails: with the frequency code 0 the refresh does not
    report the frequency as unavailable, it raises ZeroDivisionError. *)
Lemma C3_zero_code_raises :
  NewData (fst (Read (full_update 0 0) init)) = inl ZeroDivisionError.
Proof. vm_compute. reflexivity. Qed.

(** C3, as the program has it. With both bytes of parameter 7 reported, the
    frequency is 20480000.0 / (param1[7] * 256 + param2[7]) when that code
    is not 0, and it is the frequency of the screen [NewData] draws; the
    program has no "unavailable" frequency: with the code 0 the division
    raises ZeroDivisionError and [NewData] raises. *)
Theorem C3_frequency (a : Application) (hi lo : N) :
  get (param1 a) 7 = Some hi -> get (param2 a) 7 = Some lo ->
  hi < 256 -> lo < 256 ->
  (hi * 256 + lo <> 0 ->
   frequency a = inr (20480000 / N2float (hi * 256 + lo))%float /\
   forall a' : Application, NewData a = inr a' ->
     exists d : Display,
       display a' = Some d /\
       freq_khz d = (20480000 / N2float (hi * 256 + lo))%float) /\
  (hi * 256 + lo = 0 ->
   frequency a = inl ZeroDivisionError /\ raises (NewData a)).
Proof.
  intros H1 H2 Hhi Hlo.
  assert (Hw : word a 7 = inr (hi * 256 + lo)) by (apply word_set; assumption).
  split.
  - intros Hnz.
    assert (Hf : frequency a = inr (20480000 / N2float (hi * 256 + lo))%float).
    { unfold frequency, fdiv. rewrite Hw. cbn [bind].
      rewrite freq_codes_ok by lia. reflexivity. }
    split; [exact Hf|].
    intros a' H. destruct (NewData_display a a' H)
      as (d & fwd & Hd & _ & _ & _ & Hfd).
    exists d. split; [exact Hd|]. rewrite Hf in Hfd. injection Hfd as <-.
    reflexivity.
  - intros Hz.
    assert (Hf : frequency a = inl ZeroDivisionError).
    { unfold frequency, fdiv. rewrite Hw, Hz. reflexivity. }
    split; [exact Hf|]. apply (NewData_raises_with_frequency a _ Hf).
Qed.

Lemma C3_witness :
  frequency (fst (Read (full_update 40 0) init)) =
    inr (20480000 / N2float (40 * 256 + 0))%float.
Proof.
  apply (C3_frequency (fst (Read (full_update 40 0) init)) 40 0);
    reflexivity || discriminate.
Defined.

(** ** What the refresh needs *)

(** Every value in the store is a byte. *)
Definition byte_store (a : Application) : Prop :=
  forall (i : nat) (v : N),
    (get (param1 a) i = Some v -> v < 256) /\
    (get (param2 a) i = Some v -> v < 256).

Lemma get_insert (p : list (option N)) (i j : nat) (x v : option N) :
  get (<[i := x]> p) j = v -> v = x \/ v = get p j.
Proof.
  unfold get. intros H. destruct (decide (i = j)) as [->|Hne].
  - destruct (decide (j < length p)%nat) as [Hlt|Hge].
    + rewrite list_lookup_insert_eq in H by exact Hlt. left. congruence.
    + rewrite list_insert_ge in H by lia. right. congruence.
  - rewrite list_lookup_insert_ne in H by exact Hne. right. congruence.
Qed.

Lemma apply_frame_byte_store (a : Application) (byte1 byte2 byte3 : N) :
  byte2 < 256 -> byte3 < 256 -> byte_store a ->
  byte_store (fst (apply_frame a (byte1, byte2, byte3))).
Proof.
  intros H2 H3 Ha i v. destruct (Ha i v) as [Ha1 Ha2]. split; intros H.
  - rewrite apply_frame_param1 in H. destruct (19 <? byte1).
    + apply Ha1. exact H.
    + apply get_insert in H. destruct H as [H|H].
      * injection H as ->. exact H2.
      * apply Ha1. symmetry. exact H.
  - rewrite apply_frame_param2 in H. destruct (19 <? byte1).
    + apply Ha2. exact H.
    + apply get_insert in H. destruct H as [H|H].
      * injection H as ->. exact H3.
      * destruct ((byte1 =? 9) || (byte1 =? 10)).
        -- symmetry in H. apply get_insert in H. destruct H as [H|H].
           ++ discriminate H.
           ++ apply Ha2. symmetry. exact H.
        -- apply Ha2. symmetry. exact H.
Qed.

Lemma get_replicate_None (n i : nat) : get (replicate n (@None N)) i = None.
Proof.
  unfold get. destruct (replicate n (@None N) !! i) as [o|] eqn:E;
    [|reflexivity].
  apply lookup_replicate_1 in E. destruct E as [-> _]. reflexivity.
Qed.

Lemma byte_store_init : byte_store init.
Proof.
  intros i v.
  change (param1 init) with (replicate 20 (@None N)).
  change (param2 init) with (replicate 20 (@None N)).
  rewrite get_replicate_None. split; discriminate.
Qed.

Lemma swr_display_returns (power : float) (swr : option N) :
  (forall code : N, swr = Some code -> code < 256) ->
  returns (swr_display power swr).
Proof.
  intros H. unfold swr_display, returns. destruct swr as [code|].
  - destruct (2 <=? power)%float; [|eexists; reflexivity].
    pose proof (swr_codes_ok code (H code eq_refl)) as Hok.
    unfold swr_code_ok in Hok.
    apply andb_prop in Hok. destruct Hok as [Hok _].
    apply andb_prop in Hok. destruct Hok as [Hok _].
    apply andb_prop in Hok. destruct Hok as [Hneg Hden].
    apply negb_true_iff in Hneg. apply negb_true_iff in Hden.
    unfold math_sqrt, fdiv. rewrite Hneg. cbn [bind ret]. rewrite Hden.
    eexists. reflexivity.
  - eexists. reflexivity.
Qed.

Lemma DisplayIndex_returns (index : option N) :
  returns (DisplayIndex index) <-> exists k : N, index = Some k /\ k <= 6.
Proof.
  unfold returns. split.
  - intros [v H]. destruct index as [k|]; [|discriminate H].
    exists k. split; [reflexivity|].
    destruct (N.le_gt_cases k 6) as [Hle|Hgt]; [exact Hle|].
    exfalso. unfold DisplayIndex in H. cbn [need bind ret] in H.
    assert (E : button_list !! N.to_nat k = None).
    { apply lookup_ge_None_2. change (length button_list) with 7%nat. lia. }
    rewrite E in H. discriminate H.
  - intros (k & -> & Hk).
    assert (Hc : k = 0 \/ k = 1 \/ k = 2 \/ k = 3 \/ k = 4 \/ k = 5 \/ k = 6)
      by lia.
    destruct Hc as [->|[->|[->|[->|[->|[->| ->]]]]]];
      eexists; reflexivity.
Qed.

Lemma frequency_returns (a : Application) :
  byte_store a ->
  (returns (frequency a) <->
   exists hi lo : N,
     get (param1 a) 7 = Some hi /\ get (param2 a) 7 = Some lo /\
     hi * 256 + lo <> 0).
Proof.
  intros Hb. unfold returns. split.
  - intros [f H]. unfold frequency in H.
    destruct (word a 7) as [e|w] eqn:Ew; [discriminate H|].
    destruct (word_inr a 7 w Ew) as (hi & lo & H1 & H2 & ->).
    exists hi, lo. split; [exact H1|]. split; [exact H2|].
    intros Hz. rewrite Hz in H. discriminate H.
  - intros (hi & lo & H1 & H2 & Hnz).
    unfold frequency, fdiv. rewrite (word_set a 7 hi lo H1 H2). cbn [bind].
    destruct (Hb 7%nat hi) as [Hhi _]. destruct (Hb 7%nat lo) as [_ Hlo].
    specialize (Hhi H1). specialize (Hlo H2).
    rewrite freq_codes_ok by lia. eexists. reflexivity.
Qed.

(** What [NewData] needs of the state. *)
Definition refresh_ready (a : Application) : Prop :=
  (exists hi lo : N, get (param1 a) 5 = Some hi /\ get (param2 a) 5 = Some lo) /\
  (exists hi lo : N, get (param1 a) 18 = Some hi /\ get (param2 a) 18 = Some lo) /\
  is_standby a <> None /\
  (exists k : N, get (param1 a) 16 = Some k /\ k <= 6) /\
  (exists hi lo : N,
     get (param1 a) 7 = Some hi /\ get (param2 a) 7 = Some lo /\
     hi * 256 + lo <> 0) /\
  get (param1 a) 1 <> None /\
  get (param1 a) 2 <> None.

Lemma NewData_returns (a : Application) :
  byte_store a -> (returns (NewData a) <-> refresh_ready a).
Proof.
  intros Hb. split.
  - intros [a' H]. unfold NewData in H.
    repeat match type of H with
           | bind ?m _ = inr _ =>
               destruct m eqn:?; [discriminate H | cbn [bind] in H]
           end.
    unfold refresh_ready.
    repeat match goal with
           | E : word a _ = inr _ |- _ =>
               apply word_inr in E; destruct E as (? & ? & ? & ? & _)
           end.
    split; [eauto|]. split; [eauto|].
    split.
    { match goal with E : read_is_standby a = inr _ |- _ =>
        unfold read_is_standby in E; destruct (is_standby a);
        [discriminate | discriminate E] end. }
    split.
    { apply DisplayIndex_returns. eexists. eassumption. }
    split.
    { apply (frequency_returns a Hb). eexists. eassumption. }
    split;
      match goal with
      | |- get (param1 a) ?i <> None =>
          match goal with
          | E : need (get (param1 a) i) = inr _ |- _ =>
              destruct (get (param1 a) i); [discriminate | discriminate E]
          end
      end.
  - intros ((fh & fl & F1 & F2) & (rh & rl & R1 & R2) & Hst & Hk & Hf & H1 & H2).
    unfold NewData, returns.
    rewrite (word_set a 5 fh fl F1 F2), (word_set a 18 rh rl R1 R2).
    cbn [bind].
    destruct (swr_display_returns (N2float (fh * 256 + fl) / 100)
                (get (param2 a) 6)) as [sw ->].
    { intros code E. destruct (Hb 6%nat code) as [_ H6]. exact (H6 E). }
    cbn [bind].
    unfold read_is_standby. destruct (is_standby a) as [s|]; [|contradiction].
    cbn [bind ret].
    apply DisplayIndex_returns in Hk. destruct Hk as [v ->]. cbn [bind].
    apply (frequency_returns a Hb) in Hf. destruct Hf as [f ->]. cbn [bind].
    destruct (get (param1 a) 1); [|contradiction].
    destruct (get (param1 a) 2); [|contradiction].
    cbn [need bind ret]. eexists. reflexivity.
Qed.

Lemma store_all_is_standby (fs : list frame) :
  forall a : Application,
    is_standby a = None -> is_standby (store_all a fs) <> None ->
    exists byte2 byte3 : N,
      In (13, byte2, byte3) fs \/ In (14, byte2, byte3) fs.
Proof.
  induction fs as [|[[byte1 byte2] byte3] fs IH]; intros a Ha H.
  - simpl in H. contradiction.
  - simpl store_all in H.
    destruct (is_standby (fst (apply_frame a (byte1, byte2, byte3))))
      as [s|] eqn:E.
    + rewrite apply_frame_is_standby, Ha in E.
      exists byte2, byte3.
      destruct (19 <? byte1); [discriminate E|].
      destruct (byte1 =? 9); [discriminate E|].
      destruct (byte1 =? 10); [discriminate E|].
      destruct (N.eqb_spec byte1 13) as [->|_]; [left; left; reflexivity|].
      destruct (N.eqb_spec byte1 14) as [->|_]; [right; left; reflexivity|].
      discriminate E.
    + destruct (IH _ E H) as (b2 & b3 & [Hin|Hin]);
        exists b2, b3; [left|right]; right; exact Hin.
Qed.

(** The precondition of C10 in the specification's words: the standby flag
    is defined, the parameters 1, 2, 4, 5, 7, 16 and 18 are set, and
    [param1[16]] is at most 6. *)
Definition spec_refresh_precondition (a : Application) : Prop :=
  is_standby a <> None /\
  (forall i : nat, In i [1; 2; 4; 5; 7; 16; 18]%nat ->
                   get (param1 a) i <> None) /\
  (forall k : N, get (param1 a) 16 = Some k -> k <= 6).

(** A report of the device in which the antenna (parameter 4) is missing. *)
Definition no_antenna_report : list N :=
  [165; 1; 3; 0;   165; 2; 4; 0;   165; 5; 10; 0;  165; 7; 40; 0;
   165; 16; 2; 0;  165; 18; 0; 50; 165; 14; 0; 0;  165; 6; 0; 64].

(** C10, as stated, fails: parameter 4 need not have been reported. The
    refresh goes through without it, since an unset [param1[4]] is only
    tested for truth and shows antenna 1. *)
Lemma C10_refresh_without_antenna :
  returns (NewData (fst (Read no_antenna_report init))) /\
  ~ spec_refresh_precondition (fst (Read no_antenna_report init)).
Proof.
  split.
  - unfold returns.
    destruct (NewData (fst (Read no_antenna_report init))) as [e|a'] eqn:E.
    + vm_compute in E. discriminate E.
    + exists a'. reflexivity.
  - intros (_ & H & _). apply (H 4%nat).
    + simpl. auto.
    + vm_compute. reflexivity.
Qed.

(** C10, as the program has it. On a store of bytes, [NewData] returns
    exactly when the standby flag is defined, both bytes of the parameters 5,
    18 and 7 are set with a frequency code other than 0, [param1[16]] is
    set and at most 6, and [param1[1]] and [param1[2]] are set (parameter
    4 is not needed); on the state [__init__] leaves it raises TypeError.
    A pass of the steady-state loop with the relay settings in and the
    standby flag undefined raises AttributeError, and reading defines the
    flag only by a block of index 13 or 14. *)
Theorem C10_refresh_needs_report (a : Application) :
  byte_store a ->
  (returns (NewData a) <-> refresh_ready a) /\
  NewData init = inl TypeError /\
  (forall (t1 t2 : float) (chars : list N) (relays : N),
     get (param2 a) 6 = Some relays -> is_standby a = None ->
     running_tick t1 t2 chars a = inl AttributeError) /\
  (forall chars : list N,
     is_standby (fst (Read chars init)) <> None ->
     exists byte2 byte3 : N,
       In (13, byte2, byte3) (frames init chars) \/
       In (14, byte2, byte3) (frames init chars)).
Proof.
  intros Hb. split; [apply NewData_returns; exact Hb|].
  split; [reflexivity|]. split.
  - intros t1 t2 chars relays H6 Hst.
    unfold running_tick, running_select, read_is_standby.
    rewrite H6, Hst. reflexivity.
  - intros chars H.
    destruct (Read_frames chars init) as (_ & _ & E & _).
    rewrite E in H.
    apply (store_all_is_standby (frames init chars) init); [reflexivity|].
    exact H.
Qed.

Lemma C10_witness :
  byte_store init /\ NewData init = inl TypeError.
Proof.
  split; [exact byte_store_init|].
  apply (C10_refresh_needs_report init). exact byte_store_init.
Defined.

(** * Further properties of the program *)

(** ** Reading in pieces *)

Lemma Read_char_change (a : Application) (change : bool) (ch : N) :
  Read_char (a, change) ch =
  (fst (Read_char (a, false) ch), change || snd (Read_char (a, false) ch)).
Proof.
  unfold Read_char. destruct (rx_char a ch) as [a' [f|]].
  - destruct (apply_frame a' f) as [a'' stored]. reflexivity.
  - simpl. rewrite orb_false_r. reflexivity.
Qed.

Lemma fold_Read_char_change (chars : list N) :
  forall (a : Application) (change : bool),
    fold_left Read_char chars (a, change) =
    (fst (fold_left Read_char chars (a, false)),
     change || snd (fold_left Read_char chars (a, false))).
Proof.
  induction chars as [|ch chars IH]; intros a change.
  - simpl. rewrite orb_false_r. reflexivity.
  - cbn [fold_left]. rewrite (Read_char_change a change).
    destruct (Read_char (a, false) ch) as [a1 c1]. simpl fst. simpl snd.
    rewrite (IH a1 (change || c1)), (IH a1 c1).
    simpl fst. simpl snd. rewrite orb_assoc. reflexivity.
Qed.

(** The decoder keeps its place between calls of [Read]: reading a byte
    sequence in two pieces gives the state that reading it at once gives,
    and a change is reported by the whole exactly when a piece reports
    one. *)
Theorem Read_in_pieces (xs ys : list N) (a : Application) :
  Read (xs ++ ys) a =
  (fst (Read ys (fst (Read xs a))),
   snd (Read xs a) || snd (Read ys (fst (Read xs a)))).
Proof.
  unfold Read. rewrite fold_left_app.
  destruct (fold_left Read_char xs (a, false)) as [a1 c1].
  simpl fst. simpl snd. apply fold_Read_char_change.
Qed.

(** ** [Read] as decoder and store *)

(** Whether the store takes a block. *)
Definition stored (f : frame) : bool :=
  let '(byte1, _, _) := f in negb (19 <? byte1).

Lemma fold_Read_char_stored (chars : list N) :
  forall (a r : Application) (change : bool),
    same_rx a r ->
    snd (fold_left Read_char chars (a, change)) =
    change || existsb stored (frames r chars).
Proof.
  induction chars as [|ch chars IH]; intros a r change Hr.
  - simpl. rewrite orb_false_r. reflexivity.
  - cbn [fold_left frames]. unfold Read_char at 2.
    destruct (rx_char_same_rx a r ch Hr) as [Eo Hr'].
    destruct (rx_char a ch) as [a' oa], (rx_char r ch) as [r' or].
    simpl in Eo, Hr'. subst or. destruct oa as [f|].
    + pose proof (apply_frame_rx a' f) as Hra.
      destruct f as [[byte1 byte2] byte3].
      pose proof (apply_frame_change a' byte1 byte2 byte3) as Hc.
      destruct (apply_frame a' (byte1, byte2, byte3)) as [a'' st].
      simpl in Hra, Hc. subst st.
      rewrite (IH a'' r').
      * simpl existsb. rewrite orb_assoc. reflexivity.
      * destruct Hra as (Es & E1 & E2), Hr' as (Fs & F1 & F2).
        unfold same_rx. rewrite Es, E1, E2. auto.
    + apply IH. exact Hr'.
Qed.

(** [Read] does what storing the decoder's blocks in turn does to the
    store, the standby flag and the tune status, and it reports a change
    exactly when one of the blocks has an index of at most 19. *)
Theorem Read_stores_the_frames (chars : list N) (a : Application) :
  let a' := fst (Read chars a) in
  let b := store_all a (frames a chars) in
  param1 a' = param1 b /\ param2 a' = param2 b /\
  is_standby a' = is_standby b /\ tune_status a' = tune_status b /\
  snd (Read chars a) = existsb stored (frames a chars).
Proof.
  destruct (Read_frames chars a) as (E1 & E2 & E3 & E4).
  repeat split; try assumption.
  unfold Read. rewrite (fold_Read_char_stored chars a a false).
  - reflexivity.
  - unfold same_rx. auto.
Qed.

(** ** What reading keeps *)

(** The states the program can be in while it reads bytes. *)
Definition well_formed (a : Application) : Prop :=
  store_ok a /\ byte_store a /\ rx_state a <= 3 /\ rx_byte2 a < 256.

Lemma well_formed_init : well_formed init.
Proof.
  split; [exact store_ok_init|]. split; [exact byte_store_init|].
  split; [discriminate | reflexivity].
Qed.

Lemma Read_char_well_formed (a : Application) (change : bool) (ch : N) :
  ch < 256 -> well_formed a -> well_formed (fst (Read_char (a, change) ch)).
Proof.
  intros Hch (Hok & Hb & Hs & H2).
  pose proof (Read_char_store_ok (a, change) ch Hok) as Hok'.
  unfold Read_char in *. unfold rx_char in *.
  destruct (N.eqb_spec (rx_state a) 0) as [E0|N0].
  { destruct (ch =? 165); simpl fst in *;
      (split; [exact Hok'|]); (split; [exact Hb|]);
      (split; [simpl; lia | exact H2]). }
  destruct (N.eqb_spec (rx_state a) 1) as [E1|N1].
  { simpl fst in *. split; [exact Hok'|]. split; [exact Hb|].
    split; [simpl; lia | exact H2]. }
  destruct (N.eqb_spec (rx_state a) 2) as [E2|N2].
  { simpl fst in *. split; [exact Hok'|]. split; [exact Hb|].
    split; [simpl; lia | exact Hch]. }
  destruct (N.eqb_spec (rx_state a) 3) as [E3|N3]; [|lia].
  set (a1 := set_rx 0 (rx_byte1 a) (rx_byte2 a) a) in *.
  pose proof (apply_frame_byte_store a1 (rx_byte1 a) (rx_byte2 a) ch H2 Hch Hb)
    as Hb'.
  pose proof (apply_frame_rx a1 (rx_byte1 a, rx_byte2 a, ch)) as Hrx.
  destruct (apply_frame a1 (rx_byte1 a, rx_byte2 a, ch)) as [a2 st].
  simpl fst in *. destruct Hrx as (Es & _ & Eb).
  split; [exact Hok'|]. split; [exact Hb'|].
  rewrite Es, Eb. split; [simpl; lia | exact H2].
Qed.

(** Reading bytes keeps the two lists at 20 entries, every stored value a
    byte, and the decoder in one of its four states. *)
Theorem Read_keeps_well_formed (chars : list N) (a : Application) :
  Forall (fun ch => ch < 256) chars ->
  well_formed a -> well_formed (fst (Read chars a)).
Proof.
  unfold Read. generalize false. revert a.
  induction chars as [|ch chars IH]; intros a change Hall Ha; [exact Ha|].
  inversion Hall as [|? ? Hch Hrest]; subst. cbn [fold_left].
  pose proof (Read_char_well_formed a change ch Hch Ha) as H1.
  destruct (Read_char (a, change) ch) as [a1 c1]. apply IH; assumption.
Qed.

Lemma Read_keeps_well_formed_witness :
  well_formed (fst (Read [165; 5; 10; 0; 165; 9] init)).
Proof.
  apply (Read_keeps_well_formed [165; 5; 10; 0; 165; 9] init).
  - repeat constructor.
  - exact well_formed_init.
Defined.

(** ** A stored block is read back *)

Lemma get_insert_eq (p : list (option N)) (i : nat) (x : option N) :
  (i < length p)%nat -> get (<[i := x]> p) i = x.
Proof.
  intros H. unfold get. rewrite list_lookup_insert_eq by exact H. reflexivity.
Qed.

Lemma get_insert_ne (p : list (option N)) (i j : nat) (x : option N) :
  i <> j -> get (<[i := x]> p) j = get p j.
Proof.
  intros H. unfold get. rewrite list_lookup_insert_ne by exact H. reflexivity.
Qed.

Lemma get_clear (p : list (option N)) (i : nat) :
  get (<[i := None]> p) i = None.
Proof.
  unfold get. destruct (decide (i < length p)%nat) as [Hlt|Hge].
  - rewrite list_lookup_insert_eq by exact Hlt. reflexivity.
  - rewrite list_insert_ge by lia.
    rewrite lookup_ge_None_2 by lia. reflexivity.
Qed.

(** After a block with an index of at most 19 is stored, both slots of that
    index hold the values of the block; every other slot of [param1] is as
    before, and so is every other slot of [param2], except slot 6 after a
    block 9 or 10, which is unset. *)
Theorem stored_block_is_read_back
  (a : Application) (byte1 byte2 byte3 : N) :
  byte1 <= 19 -> store_ok a ->
  let a' := fst (apply_frame a (byte1, byte2, byte3)) in
  get (param1 a') (N.to_nat byte1) = Some byte2 /\
  get (param2 a') (N.to_nat byte1) = Some byte3 /\
  (forall j : nat, j <> N.to_nat byte1 ->
     get (param1 a') j = get (param1 a) j /\
     (get (param2 a') j =
      if ((byte1 =? 9) || (byte1 =? 10)) && Nat.eqb j 6 then None
      else get (param2 a) j)).
Proof.
  intros Hle [H1 H2] a'. subst a'.
  rewrite apply_frame_param1, apply_frame_param2.
  destruct (N.ltb_spec 19 byte1) as [Hgt|_]; [lia|].
  split; [apply get_insert_eq; lia|].
  split.
  { apply get_insert_eq.
    destruct ((byte1 =? 9) || (byte1 =? 10));
      rewrite ?length_insert; lia. }
  intros j Hj. split; [apply get_insert_ne; congruence|].
  rewrite get_insert_ne by congruence.
  destruct ((byte1 =? 9) || (byte1 =? 10)); [|reflexivity].
  cbn [andb]. destruct (Nat.eqb_spec j 6) as [->|Hne].
  - apply get_clear.
  - apply get_insert_ne. congruence.
Qed.

Lemma stored_block_is_read_back_witness :
  let a' := fst (apply_frame init (9, 1, 2)) in
  get (param1 a') (N.to_nat 9) = Some 1 /\
  get (param2 a') (N.to_nat 9) = Some 2 /\
  (forall j : nat, j <> N.to_nat 9 ->
     get (param1 a') j = get (param1 init) j /\
     (get (param2 a') j =
      if ((9 =? 9) || (9 =? 10)) && Nat.eqb j 6 then None
      else get (param2 init) j)).
Proof.
  apply (stored_block_is_read_back init 9 1 2);
    [discriminate | exact store_ok_init].
Defined.

(** ** What receiving and refreshing leave alone *)

(** Everything in the state that is not the decoder's, the store's, the
    standby flag or the tune status. *)
Definition same_rest (a b : Application) : Prop :=
  serial a = serial b /\ autotune a = autotune b /\ time0 a = time0 b /\
  swr_var a = swr_var b /\ display a = display b /\ sent a = sent b.

Lemma Read_char_same_rest (a : Application) (change : bool) (ch : N) :
  same_rest (fst (Read_char (a, change) ch)) a.
Proof.
  unfold Read_char.
  assert (Hrx : same_rest (fst (rx_char a ch)) a).
  { unfold rx_char, same_rest.
    destruct (rx_state a =? 0); [destruct (ch =? 165); simpl; auto 10|].
    destruct (rx_state a =? 1); [simpl; auto 10|].
    destruct (rx_state a =? 2); [simpl; auto 10|].
    destruct (rx_state a =? 3); simpl; auto 10. }
  destruct (rx_char a ch) as [a' [[[byte1 byte2] byte3]|]]; [|exact Hrx].
  pose proof (apply_frame_others a' byte1 byte2 byte3) as Ho.
  destruct (apply_frame a' (byte1, byte2, byte3)) as [a'' st].
  simpl in *. unfold same_rest in *.
  destruct Ho as (-> & -> & -> & -> & -> & ->). exact Hrx.
Qed.

Lemma Read_same_rest (chars : list N) (a : Application) :
  same_rest (fst (Read chars a)) a.
Proof.
  assert (H : forall st : Application * bool,
            same_rest (fst (fold_left Read_char chars st)) (fst st)).
  { induction chars as [|ch chars IH]; intros [b change].
    - unfold same_rest. auto 10.
    - cbn [fold_left].
      pose proof (Read_char_same_rest b change ch) as H1.
      specialize (IH (Read_char (b, change) ch)).
      unfold same_rest in *. simpl fst in *.
      destruct IH as (-> & -> & -> & -> & -> & ->). exact H1. }
  exact (H (a, false)).
Qed.

(** Receiving never sends: [Read] writes nothing to the port, and it leaves
    the user's AutoTune wish, the request timer and the screen alone. *)
Theorem Read_only_receives (chars : list N) (a : Application) :
  let a' := fst (Read chars a) in
  sent a' = sent a /\ serial a' = serial a /\ autotune a' = autotune a /\
  time0 a' = time0 a /\ swr_var a' = swr_var a /\ display a' = display a.
Proof.
  pose proof (Read_same_rest chars a) as H. unfold same_rest in H.
  cbv zeta. tauto.
Qed.

Lemma NewData_draws (a a' : Application) :
  NewData a = inr a' ->
  exists (d : Display) (v : float), a' = set_swr_var v (set_display d a).
Proof.
  unfold NewData. intros H.
  repeat match type of H with
         | bind ?m _ = inr _ =>
             destruct m eqn:?; [discriminate H | cbn [bind] in H]
         end.
  injection H as <-. eexists. eexists. reflexivity.
Qed.

(** The refresh only draws: when [NewData] returns, a screen is drawn and
    the threshold row's variable is set, and nothing else has changed: the
    port and what was sent, the store, the standby flag, the tune status,
    the user's AutoTune wish, the request timer and the decoder's place. *)
Theorem NewData_only_draws (a a' : Application) :
  NewData a = inr a' ->
  display a' <> None /\ swr_var a' <> None /\
  sent a' = sent a /\ serial a' = serial a /\
  param1 a' = param1 a /\ param2 a' = param2 a /\
  is_standby a' = is_standby a /\ tune_status a' = tune_status a /\
  autotune a' = autotune a /\ time0 a' = time0 a /\
  rx_state a' = rx_state a /\ rx_byte1 a' = rx_byte1 a /\
  rx_byte2 a' = rx_byte2 a.
Proof.
  intros H. destruct (NewData_draws a a' H) as (d & v & ->).
  split; [discriminate|]. split; [discriminate|]. repeat split.
Qed.

Lemma NewData_only_draws_witness :
  exists a' : Application,
    NewData (fst (Read (full_update 40 0) init)) = inr a' /\
    display a' <> None /\
    sent a' = sent (fst (Read (full_update 40 0) init)) /\
    param1 a' = param1 (fst (Read (full_update 40 0) init)).
Proof.
  destruct (NewData (fst (Read (full_update 40 0) init))) as [e|a'] eqn:E.
  - vm_compute in E. discriminate E.
  - destruct (NewData_only_draws _ a' E) as (Hd & _ & Hs & _ & Hp & _).
    exists a'. split; [reflexivity|]. split; [exact Hd|].
    split; [exact Hs | exact Hp].
Defined.

(** ** The handshake loop *)

Lemma py_ne_false (x y : option N) : py_ne x y = false <-> x = y.
Proof.
  unfold py_ne. destruct x as [m|], y as [n|]; split; intros H;
    try discriminate H; try reflexivity.
  - apply negb_false_iff in H. apply N.eqb_eq in H. congruence.
  - injection H as ->. rewrite N.eqb_refl. reflexivity.
Qed.

(** One pass of the handshake loop ends the loop exactly when live updates
    are reported on ([param1[19]] is 1), the relay settings are in
    ([param2[6]] is set) and the version is answered ([param1[11]] is 1),
    and it then writes nothing; any other pass writes at most one byte,
    which is 63, 40 or 41, and 40 only when a second has passed since the
    last request. *)
Theorem handshake_select_ends (t1 t2 : float) (a : Application) :
  let a' := fst (handshake_select t1 t2 a) in
  let done := snd (handshake_select t1 t2 a) in
  (done = true <->
   get (param1 a) 19 = Some 1 /\ get (param2 a) 6 <> None /\
   get (param1 a) 11 = Some 1) /\
  (done = true -> a' = a) /\
  (serial a = true ->
   sent a' = sent a \/ sent a' = sent a ++ [63%Z] \/
   (sent a' = sent a ++ [40%Z] /\ (1 <=? t1 - time0 a)%float = true /\
    time0 a' = t2) \/
   sent a' = sent a ++ [41%Z]).
Proof.
  unfold handshake_select.
  change (Some (Z.to_N (64 - REQ_LIVEUPDATE))) with (Some 1).
  destruct (py_ne (Some 1) (get (param1 a) 19)) eqn:E19.
  { cbn [fst snd]. split; [|split].
    - split; [discriminate|]. intros (H & _). symmetry in H.
      apply py_ne_false in H. congruence.
    - discriminate.
    - intros Hs. right. left. apply (sent_Write 63 a Hs). }
  apply py_ne_false in E19. symmetry in E19.
  destruct (get (param2 a) 6) as [relays|].
  - destruct (py_ne (get (param1 a) 11) (Some 1)) eqn:E11.
    + cbn [fst snd]. split; [|split].
      * split; [discriminate|]. intros (_ & _ & H).
        apply py_ne_false in H. congruence.
      * discriminate.
      * intros Hs. right. right. right. apply (sent_Write 41 a Hs).
    + apply py_ne_false in E11. cbn [fst snd]. split; [|split].
      * split; [|reflexivity]. intros _.
        split; [exact E19|]. split; [discriminate | exact E11].
      * reflexivity.
      * intros _. left. reflexivity.
  - destruct (1 <=? t1 - time0 a)%float eqn:Et; cbn [fst snd].
    + split; [|split].
      * split; [discriminate|]. intros (_ & H & _). contradiction.
      * discriminate.
      * intros Hs. right. right. left.
        split; [apply (sent_Write 40 (set_time0 t2 a) Hs)|].
        split; [reflexivity|]. unfold Write.
        change (serial (set_time0 t2 a)) with (serial a). rewrite Hs.
        reflexivity.
    + split; [|split].
      * split; [discriminate|]. intros (_ & H & _). contradiction.
      * discriminate.
      * intros _. left. reflexivity.
Qed.

(** ** From the handshake to the steady state *)

Lemma enter_running_fields (a a' : Application) :
  enter_running a = inr a' ->
  param1 a' = param1 a /\ param2 a' = param2 a /\
  is_standby a' = is_standby a /\ autotune a' = get (param1 a) 17 /\
  sent a' = sent a /\ serial a' = serial a.
Proof.
  unfold enter_running. intros H.
  destruct (NewData (set_autotune (get (param1 a) 17) a)) as [e|a1] eqn:E;
    [discriminate H|].
  cbn [bind] in H. injection H as <-.
  destruct (NewData_draws _ _ E) as (d & v & ->).
  repeat split.
Qed.

(** The wish starts as the reported AutoTune state: right after the
    handshake, a pass of the steady-state loop with the relay settings in
    and the device active sends nothing and changes nothing. *)
Theorem first_pass_sends_nothing
  (t1 t2 : float) (a a' : Application) (relays : N) :
  enter_running a = inr a' ->
  get (param2 a) 6 = Some relays ->
  is_standby a = Some 0 ->
  running_select t1 t2 a' = inr a'.
Proof.
  intros H H6 Hst.
  destruct (enter_running_fields a a' H) as (E1 & E2 & E3 & E4 & _).
  unfold running_select, read_is_standby.
  rewrite E2, E3, E4, E1, H6, Hst. cbn [bind ret].
  change (0 =? 0) with true. cbn [negb andb].
  replace (py_ne (get (param1 a) 17) (get (param1 a) 17)) with false
    by (symmetry; apply py_ne_false; reflexivity).
  reflexivity.
Qed.

Lemma first_pass_sends_nothing_witness :
  exists a' : Application,
    enter_running (fst (Read (full_update 40 0) init)) = inr a' /\
    running_select 0 0 a' = inr a'.
Proof.
  destruct (enter_running (fst (Read (full_update 40 0) init)))
    as [e|a'] eqn:E.
  - vm_compute in E. discriminate E.
  - exists a'. split; [reflexivity|].
    apply (first_pass_sends_nothing 0 0 _ a' 64 E); reflexivity.
Defined.

(** ** What a pass of the steady-state loop sends *)

(** A pass that returns has written at most one byte: 40, 59, or 59 minus
    the wish (which is then at most 59); reading and refreshing add
    nothing. *)
Lemma running_tick_sends_one_byte
  (t1 t2 : float) (chars : list N) (a a' : Application) :
  serial a = true ->
  running_tick t1 t2 chars a = inr a' ->
  sent a' = sent a \/
  sent a' = sent a ++ [40%Z] \/
  sent a' = sent a ++ [59%Z] \/
  exists want : N,
    autotune a = Some want /\ want <= 59 /\
    sent a' = sent a ++ [(59 - Z.of_N want)%Z].
Proof.
  intros Hs H. unfold running_tick in H.
  destruct (running_select t1 t2 a) as [e|a1] eqn:Esel; [discriminate H|].
  cbn [bind] in H.
  assert (Hsent : sent a' = sent a1).
  { destruct (Read_same_rest chars a1) as (_ & _ & _ & _ & _ & Er).
    destruct (Read chars a1) as [a2 change]. simpl fst in Er.
    destruct change.
    - destruct (NewData_draws a2 a' H) as (d & v & ->).
      exact Er.
    - injection H as <-. exact Er. }
  rewrite Hsent. clear H Hsent.
  unfold running_select in Esel.
  destruct (get (param2 a) 6) as [relays|].
  - destruct (read_is_standby a) as [e|standby]; [discriminate Esel|].
    cbn [bind] in Esel.
    destruct (negb (standby =? 0) && py_ne (get (param1 a) 17) (Some 0)).
    { injection Esel as <-. right. right. left. apply (sent_Write 59 a Hs). }
    destruct ((standby =? 0) && py_ne (autotune a) (get (param1 a) 17)).
    + destruct (autotune a) as [want|]; [|discriminate Esel].
      cbn [need bind ret] in Esel. unfold chr in Esel.
      destruct (Z.leb_spec 0 (59 - Z.of_N want)) as [Hge|Hlt];
        [|discriminate Esel].
      destruct (Z.leb_spec (59 - Z.of_N want) 1114111); [|discriminate Esel].
      cbn [andb bind ret] in Esel. injection Esel as <-.
      right. right. right. exists want. split; [reflexivity|].
      split; [lia|]. rewrite sent_Write by exact Hs. unfold encode.
      destruct (Z.ltb_spec (59 - Z.of_N want) 128); [reflexivity | lia].
    + injection Esel as <-. left. reflexivity.
  - destruct (1 <=? t1 - time0 a)%float; injection Esel as <-.
    + right. left. apply (sent_Write 40 (set_time0 t2 a) Hs).
    + left. reflexivity.
Qed.

Lemma running_tick_sends_one_byte_witness :
  exists a' : Application,
    running_tick 0 0 [] wants_auto_on = inr a' /\
    (sent a' = sent wants_auto_on \/
     sent a' = sent wants_auto_on ++ [40%Z] \/
     sent a' = sent wants_auto_on ++ [59%Z] \/
     exists want : N,
       autotune wants_auto_on = Some want /\ want <= 59 /\
       sent a' = sent wants_auto_on ++ [(59 - Z.of_N want)%Z]).
Proof.
  destruct (running_tick 0 0 [] wants_auto_on) as [e|a'] eqn:E.
  - vm_compute in E. discriminate E.
  - exists a'. split; [reflexivity|].
    apply (running_tick_sends_one_byte 0 0 [] wants_auto_on a');
      [reflexivity | exact E].
Defined.

(** A wish above 59 cannot be sent: with the relay settings in, the device
    active and the wish different from the reported flag, the pass raises
    ValueError, as [chr] of a negative number does. *)
Theorem running_select_wish_too_large
  (t1 t2 : float) (a : Application) (relays want : N) :
  get (param2 a) 6 = Some relays ->
  is_standby a = Some 0 ->
  autotune a = Some want ->
  59 < want ->
  py_ne (Some want) (get (param1 a) 17) = true ->
  running_select t1 t2 a = inl ValueError.
Proof.
  intros H6 Hst Hw Hgt Hne.
  unfold running_select, read_is_standby. rewrite H6, Hst, Hw.
  cbn [bind ret]. change (0 =? 0) with true. cbn [negb andb].
  rewrite Hne. cbn [need bind ret]. unfold chr.
  destruct (Z.leb_spec 0 (59 - Z.of_N want)) as [Hge|Hlt]; [lia|].
  reflexivity.
Qed.

Lemma running_select_wish_too_large_witness :
  running_select 0 0
    (set_autotune (Some 60)
       (fst (Read [165; 17; 0; 0; 165; 14; 0; 0; 165; 6; 0; 64] init))) =
  inl ValueError.
Proof.
  apply (running_select_wish_too_large 0 0 _ 64 60); reflexivity.
Defined.

(** ** Requests that follow an event *)

Lemma running_select_unset (t1 t2 : float) (a : Application) :
  get (param2 a) 6 = None ->
  running_select t1 t2 a =
  inr (if (1 <=? t1 - time0 a)%float then Write 40 (set_time0 t2 a) else a).
Proof.
  intros H. unfold running_select. rewrite H.
  destruct (1 <=? t1 - time0 a)%float; reflexivity.
Qed.

(** Pressing the standby button writes 44 (pressed in) or 45 (released) and
    unsets the relay settings, so the next pass of the steady-state loop
    asks for a full update (40) once a second has passed since the last
    request, before it looks at standby or AutoTune, and whether or not the
    standby flag is defined. *)
Theorem standby_press_requests_update
  (value : bool) (t1 t2 : float) (a : Application) :
  serial a = true ->
  sent (OnButtonStandby value a) = sent a ++ [if value then 44%Z else 45%Z] /\
  exists a' : Application,
    running_select t1 t2 (OnButtonStandby value a) = inr a' /\
    sent a' =
      sent a ++ [if value then 44%Z else 45%Z] ++
      (if (1 <=? t1 - time0 a)%float then [40%Z] else []).
Proof.
  intros Hs.
  assert (H6 : get (param2 (OnButtonStandby value a)) 6 = None).
  { unfold OnButtonStandby. destruct value; apply get_clear. }
  assert (Hsent : sent (OnButtonStandby value a) =
                  sent a ++ [if value then 44%Z else 45%Z]).
  { unfold OnButtonStandby. destruct value.
    - change (sent (set_param2 (<[6%nat := None]> (param2 (Write 44 a)))
                      (Write 44 a))) with (sent (Write 44 a)).
      apply (sent_Write 44 a Hs).
    - change (sent (set_param2 (<[6%nat := None]> (param2 (Write 45 a)))
                      (Write 45 a))) with (sent (Write 45 a)).
      apply (sent_Write 45 a Hs). }
  assert (Hser : serial (OnButtonStandby value a) = true).
  { unfold OnButtonStandby, Write. rewrite Hs. destruct value; exact Hs. }
  assert (Ht : time0 (OnButtonStandby value a) = time0 a).
  { unfold OnButtonStandby, Write. rewrite Hs. destruct value; reflexivity. }
  split; [exact Hsent|].
  rewrite (running_select_unset t1 t2 _ H6), Ht.
  eexists. split; [reflexivity|].
  destruct (1 <=? t1 - time0 a)%float.
  - rewrite sent_Write by exact Hser.
    change (sent (set_time0 t2 (OnButtonStandby value a)))
      with (sent (OnButtonStandby value a)).
    rewrite Hsent, <- app_assoc. reflexivity.
  - rewrite Hsent, app_nil_r. reflexivity.
Qed.

Lemma standby_press_requests_update_witness :
  sent (OnButtonStandby true init) = sent init ++ [44%Z] /\
  exists a' : Application,
    running_select 2 2 (OnButtonStandby true init) = inr a' /\
    sent a' =
      sent init ++ [44%Z] ++
      (if (1 <=? 2 - time0 init)%float then [40%Z] else []).
Proof.
  apply (standby_press_requests_update true 2 2 init). reflexivity.
Defined.

(** A tune-pass or tune-fail block (index 9 or 10) unsets the relay
    settings: the next pass of the steady-state loop asks for a full update
    (40) once a second has passed since the last request, and sends
    nothing else. *)
Theorem tune_block_requests_update
  (t1 t2 : float) (a : Application) (byte1 byte2 byte3 : N) :
  byte1 = 9 \/ byte1 = 10 ->
  serial a = true ->
  let a1 := fst (apply_frame a (byte1, byte2, byte3)) in
  get (param2 a1) 6 = None /\
  exists a' : Application,
    running_select t1 t2 a1 = inr a' /\
    sent a' =
      sent a ++ (if (1 <=? t1 - time0 a)%float then [40%Z] else []).
Proof.
  intros Hb Hs a1.
  destruct (apply_frame_others a byte1 byte2 byte3)
    as (Eser & _ & Et & _ & _ & Esent).
  fold a1 in Eser, Et, Esent.
  assert (H6 : get (param2 a1) 6 = None).
  { unfold a1. rewrite apply_frame_param2.
    destruct Hb as [-> | ->]; cbn [N.ltb N.compare Pos.compare
      Pos.compare_cont N.eqb Pos.eqb orb];
      (rewrite get_insert_ne by (cbn; lia)); apply get_clear. }
  split; [exact H6|].
  rewrite (running_select_unset t1 t2 a1 H6), Et.
  eexists. split; [reflexivity|].
  destruct (1 <=? t1 - time0 a)%float.
  - rewrite sent_Write by (rewrite <- Hs; exact Eser).
    change (sent (set_time0 t2 a1)) with (sent a1). rewrite Esent.
    reflexivity.
  - rewrite Esent, app_nil_r. reflexivity.
Qed.

Lemma tune_block_requests_update_witness :
  let a1 := fst (apply_frame after_relays (9, 0, 0)) in
  get (param2 a1) 6 = None /\
  exists a' : Application,
    running_select 2 2 a1 = inr a' /\
    sent a' =
      sent after_relays ++
      (if (1 <=? 2 - time0 after_relays)%float then [40%Z] else []).
Proof.
  apply (tune_block_requests_update 2 2 after_relays 9 0 0);
    [left; reflexivity | reflexivity].
Defined.

(** The Auto button and the next pass. With the relay settings in and the
    device active: the button pressed in (shown as "Auto OFF") makes the
    pass write 59 when the device reports AutoTune on, and nothing when it
    reports it off; the button released makes the pass write 58 when the
    device does not report the flag 1, and nothing when it does. *)
Theorem auto_button_request
  (value : bool) (t1 t2 : float) (a : Application) (relays flag : N) :
  serial a = true ->
  get (param2 a) 6 = Some relays ->
  is_standby a = Some 0 ->
  get (param1 a) 17 = Some flag ->
  exists a' : Application,
    running_select t1 t2 (OnButtonAuto value a) = inr a' /\
    sent a' =
      sent a ++
      (if value then (if flag =? 0 then [] else [59%Z])
       else (if flag =? 1 then [] else [58%Z])).
Proof.
  intros Hs H6 Hst H17.
  unfold running_select, read_is_standby, OnButtonAuto.
  destruct value.
  - change (param2 (set_autotune (Some 0) a)) with (param2 a).
    change (param1 (set_autotune (Some 0) a)) with (param1 a).
    change (is_standby (set_autotune (Some 0) a)) with (is_standby a).
    change (autotune (set_autotune (Some 0) a)) with (Some 0).
    rewrite H6, Hst, H17. cbn [bind ret need py_ne].
    change (0 =? 0) with true. cbn [negb andb].
    rewrite (N.eqb_sym 0 flag).
    destruct (flag =? 0); cbn [negb]; eexists.
    + split; [reflexivity|]. rewrite app_nil_r. reflexivity.
    + split; [reflexivity|].
      apply (sent_Write 59 (set_autotune (Some 0) a) Hs).
  - change (param2 (set_autotune (Some 1) a)) with (param2 a).
    change (param1 (set_autotune (Some 1) a)) with (param1 a).
    change (is_standby (set_autotune (Some 1) a)) with (is_standby a).
    change (autotune (set_autotune (Some 1) a)) with (Some 1).
    rewrite H6, Hst, H17. cbn [bind ret need py_ne].
    change (0 =? 0) with true. cbn [negb andb].
    rewrite (N.eqb_sym 1 flag).
    destruct (flag =? 1); cbn [negb]; eexists.
    + split; [reflexivity|]. rewrite app_nil_r. reflexivity.
    + split; [reflexivity|].
      apply (sent_Write 58 (set_autotune (Some 1) a) Hs).
Qed.

Lemma auto_button_request_witness :
  exists a' : Application,
    running_select 0 0
      (OnButtonAuto true (fst (Read (full_update 40 0) init))) = inr a' /\
    sent a' =
      sent (fst (Read (full_update 40 0) init)) ++
      (if 1 =? 0 then [] else [59%Z]).
Proof.
  apply (auto_button_request true 0 0 (fst (Read (full_update 40 0) init)) 64 1);
    reflexivity.
Defined.

(** The Z button toggles what the screen shows: after a refresh, the button
    writes 8 when the status line says "Low Z" and 9 when it says "High
    Z". *)
Theorem hiloz_button_toggles (a a' : Application) (d : Display) :
  serial a = true ->
  NewData a = inr a' ->
  display a' = Some d ->
  (hilow d = "Low Z"%string /\ sent (OnButtonHiLoZ a') = sent a' ++ [8%Z]) \/
  (hilow d = "High Z"%string /\ sent (OnButtonHiLoZ a') = sent a' ++ [9%Z]).
Proof.
  intros Hs H Hd. unfold NewData in H.
  repeat match type of H with
         | bind ?m _ = inr _ =>
             destruct m eqn:?; [discriminate H | cbn [bind] in H]
         end.
  injection H as <-. injection Hd as <-. cbn [hilow].
  unfold OnButtonHiLoZ.
  match goal with
  | |- context [param1 (set_swr_var ?v (set_display ?d a))] =>
      change (param1 (set_swr_var v (set_display d a))) with (param1 a);
      set (a1 := set_swr_var v (set_display d a))
  end.
  assert (Hs1 : serial a1 = true) by exact Hs.
  destruct (truthy (get (param1 a) 3)); [left | right];
    (split; [reflexivity|]); apply sent_Write; exact Hs1.
Qed.

Lemma hiloz_button_toggles_witness :
  exists (a' : Application) (d : Display),
    NewData (fst (Read (full_update 40 0) init)) = inr a' /\
    display a' = Some d /\
    ((hilow d = "Low Z"%string /\
      sent (OnButtonHiLoZ a') = sent a' ++ [8%Z]) \/
     (hilow d = "High Z"%string /\
      sent (OnButtonHiLoZ a') = sent a' ++ [9%Z])).
Proof.
  destruct (NewData (fst (Read (full_update 40 0) init))) as [e|a'] eqn:E.
  - vm_compute in E. discriminate E.
  - destruct (NewData_display _ a' E) as (d & _ & Hd & _).
    exists a', d. split; [reflexivity|]. split; [exact Hd|].
    apply (hiloz_button_toggles (fst (Read (full_update 40 0) init)) a' d);
      [reflexivity | exact E | exact Hd].
Defined.

(** ** The scales of the screen *)

Lemma word_bytes (a : Application) (i : nat) (w : N) :
  byte_store a -> word a i = inr w -> w < 65536.
Proof.
  intros Hb H. destruct (word_inr a i w H) as (hi & lo & H1 & H2 & ->).
  destruct (Hb i hi) as [Hhi _]. destruct (Hb i lo) as [_ Hlo].
  specialize (Hhi H1). specialize (Hlo H2). lia.
Qed.

Definition power_code_ok (w : N) : bool :=
  Bool.eqb (N2float w / 100 / MAX_POWER <? 1)%float (w <? 20000) &&
  (0 <=? N2float w / 100 / MAX_POWER)%float &&
  implb (N2float w / 100 / MAX_POWER <? 1)%float
        (N2float w / 100 / MAX_POWER <=? 1)%float &&
  Bool.eqb (2 <=? N2float w / 100)%float (200 <=? w).

Lemma power_codes_ok (w : N) : w < 65536 -> power_code_ok w = true.
Proof.
  intros H.
  apply (all_from_spec (N.to_nat 65536) 0 power_code_ok); [|lia|lia].
  vm_compute. reflexivity.
Qed.

Lemma Read_byte_store (chars : list N) (a : Application) :
  Forall (fun ch => ch < 256) chars ->
  well_formed a -> byte_store (fst (Read chars a)).
Proof.
  unfold Read. generalize false. revert a.
  induction chars as [|ch chars IH]; intros a change Hall Ha;
    [apply Ha|].
  inversion Hall as [|? ? Hch Hrest]; subst. cbn [fold_left].
  pose proof (Read_char_well_formed a change ch Hch Ha) as H1.
  destruct (Read_char (a, change) ch) as [a1 c1]. apply IH; assumption.
Qed.

Lemma full_update_bytes (hi lo : N) :
  hi < 256 -> lo < 256 -> Forall (fun ch => ch < 256) (full_update hi lo).
Proof. intros H1 H2. unfold full_update. repeat constructor; assumption. Qed.

Lemma NewData_bars (a a' : Application) (d : Display) :
  NewData a = inr a' -> display a' = Some d ->
  exists fwd rfl : N,
    word a 5 = inr fwd /\ word a 18 = inr rfl /\
    power_w d = (N2float fwd / 100)%float /\
    power_frac d = min1 (N2float fwd / 100 / MAX_POWER)%float /\
    refl_w d = (N2float rfl / 100)%float /\
    refl_frac d = min1 (N2float rfl / 100 / MAX_POWER)%float /\
    swr_display (N2float fwd / 100)%float (get (param2 a) 6) =
      inr (swr_shown d, swr_frac d).
Proof.
  unfold NewData. intros H Hd.
  repeat match type of H with
         | bind ?m _ = inr _ =>
             destruct m eqn:?; [discriminate H | cbn [bind] in H]
         end.
  injection H as <-. injection Hd as <-.
  match goal with p : (option float * float)%type |- _ => destruct p end.
  eexists. eexists. repeat (split; [reflexivity|]).
  match goal with E : swr_display _ _ = _ |- _ => exact E end.
Qed.

(** The power bars stay in their frames. For the forward and the reflected
    power alike, the fraction of the bar that [NewData] fills is between 0
    and 1, below 1 for a code under 20000 (200 W) and exactly 1 from there
    on. *)
Theorem power_bars_in_range (a a' : Application) (d : Display) :
  byte_store a -> NewData a = inr a' -> display a' = Some d ->
  exists fwd rfl : N,
    word a 5 = inr fwd /\ word a 18 = inr rfl /\
    (0 <=? power_frac d)%float = true /\ (power_frac d <=? 1)%float = true /\
    (0 <=? refl_frac d)%float = true /\ (refl_frac d <=? 1)%float = true /\
    (fwd < 20000 -> (power_frac d <? 1)%float = true) /\
    (20000 <= fwd -> power_frac d = 1%float) /\
    (rfl < 20000 -> (refl_frac d <? 1)%float = true) /\
    (20000 <= rfl -> refl_frac d = 1%float).
Proof.
  intros Hb H Hd.
  destruct (NewData_bars a a' d H Hd)
    as (fwd & rfl & Hf & Hr & _ & Epf & _ & Erf & _).
  exists fwd, rfl. split; [exact Hf|]. split; [exact Hr|].
  assert (Hbar : forall w : N, w < 65536 ->
            let frac := min1 (N2float w / 100 / MAX_POWER)%float in
            (0 <=? frac)%float = true /\ (frac <=? 1)%float = true /\
            (w < 20000 -> (frac <? 1)%float = true) /\
            (20000 <= w -> frac = 1%float)).
  { intros w Hw frac. subst frac.
    pose proof (power_codes_ok w Hw) as Hok. unfold power_code_ok in Hok.
    apply andb_prop in Hok. destruct Hok as [Hok _].
    apply andb_prop in Hok. destruct Hok as [Hok Hle].
    apply andb_prop in Hok. destruct Hok as [Hlt Hpos].
    apply eqb_prop in Hlt. unfold min1. rewrite Hlt. rewrite Hlt in Hle.
    destruct (N.ltb_spec w 20000) as [Hs|Hl].
    - split; [exact Hpos|]. split; [exact Hle|].
      split; [intros _; exact Hlt | lia].
    - split; [reflexivity|]. split; [reflexivity|].
      split; [lia | reflexivity]. }
  destruct (Hbar fwd (word_bytes a 5 fwd Hb Hf)) as (P1 & P2 & P3 & P4).
  destruct (Hbar rfl (word_bytes a 18 rfl Hb Hr)) as (R1 & R2 & R3 & R4).
  rewrite Epf, Erf. auto 10.
Qed.

Lemma power_bars_in_range_witness :
  exists (a' : Application) (d : Display),
    NewData (fst (Read (full_update 40 0) init)) = inr a' /\
    display a' = Some d /\
    (0 <=? power_frac d)%float = true /\ (power_frac d <=? 1)%float = true.
Proof.
  destruct (NewData (fst (Read (full_update 40 0) init))) as [e|a'] eqn:E.
  - vm_compute in E. discriminate E.
  - destruct (NewData_display _ a' E) as (d & _ & Hd & _).
    exists a', d. split; [reflexivity|]. split; [exact Hd|].
    destruct (power_bars_in_range (fst (Read (full_update 40 0) init)) a' d)
      as (fwd & rfl & _ & _ & P1 & P2 & _);
      [apply Read_byte_store;
         [apply full_update_bytes; reflexivity | exact well_formed_init]
      | exact E | exact Hd |].
    split; assumption.
Defined.

Definition swr_scale_ok (c : N) : bool :=
  let rho := PrimFloat.sqrt (N2float c / 256)%float in
  let frac := min1 ((spec_swr c - 1) / (MAX_SWR - 1))%float in
  Bool.eqb (99.9 <? (1 + rho) / (1 - rho))%float (246 <=? c) &&
  implb (c <? 246) (spec_swr c <? 99.9)%float &&
  Bool.eqb (frac <? 1)%float (c <? 114) &&
  (0 <=? frac)%float && (frac <=? 1)%float.

Lemma swr_scales_ok (c : N) : c < 256 -> swr_scale_ok c = true.
Proof.
  intros H.
  apply (all_from_spec (N.to_nat 256) 0 swr_scale_ok); [|lia|lia].
  vm_compute. reflexivity.
Qed.

Lemma swr_display_value (power : float) (c : N) :
  c < 256 -> (2 <=? power)%float = true ->
  swr_display power (Some c) =
  inr (Some (spec_swr c), min1 ((spec_swr c - 1) / (MAX_SWR - 1))%float).
Proof.
  intros Hc Hp. pose proof (swr_codes_ok c Hc) as Hok.
  unfold swr_code_ok in Hok.
  apply andb_prop in Hok. destruct Hok as [Hok _].
  apply andb_prop in Hok. destruct Hok as [Hok _].
  apply andb_prop in Hok. destruct Hok as [Hneg Hden].
  apply negb_true_iff in Hneg. apply negb_true_iff in Hden.
  unfold swr_display, math_sqrt, fdiv. rewrite Hp, Hneg.
  cbn [bind ret]. rewrite Hden. reflexivity.
Qed.

(** The SWR scale. With at least 2.0 W forward and an SWR code [c] below
    256, the value shown is below 99.9 for codes under 246 and exactly the
    clamp 99.9 from 246 on; the bar is filled to a fraction between 0 and 1,
    below 1 for codes under 114 and exactly 1 (SWR 5 and more) from 114
    on. *)
Theorem swr_scale (power : float) (c : N) :
  c < 256 -> (2 <=? power)%float = true ->
  exists swr frac : float,
    swr_display power (Some c) = inr (Some swr, frac) /\
    (c < 246 -> (swr <? 99.9)%float = true) /\
    (246 <= c -> swr = 99.9%float) /\
    (0 <=? frac)%float = true /\ (frac <=? 1)%float = true /\
    (c < 114 -> (frac <? 1)%float = true) /\
    (114 <= c -> frac = 1%float).
Proof.
  intros Hc Hp. rewrite (swr_display_value power c Hc Hp).
  eexists. eexists. split; [reflexivity|].
  pose proof (swr_scales_ok c Hc) as Hok. unfold swr_scale_ok in Hok.
  cbv zeta in Hok.
  apply andb_prop in Hok. destruct Hok as [Hok Hle].
  apply andb_prop in Hok. destruct Hok as [Hok Hpos].
  apply andb_prop in Hok. destruct Hok as [Hok Hbar].
  apply andb_prop in Hok. destruct Hok as [Hclamp Hbelow].
  apply eqb_prop in Hclamp. apply eqb_prop in Hbar.
  split.
  { intros Hlt. destruct (N.ltb_spec c 246) as [_|Hge]; [|lia].
    exact Hbelow. }
  split.
  { intros Hge. unfold spec_swr. cbv zeta. rewrite Hclamp.
    destruct (N.leb_spec 246 c) as [_|Hlt]; [reflexivity | lia]. }
  split; [exact Hpos|]. split; [exact Hle|].
  unfold min1 in *.
  destruct ((spec_swr c - 1) / (MAX_SWR - 1) <? 1)%float eqn:Ex.
  - split; [intros _; exact Ex|]. intros Hge. rewrite Ex in Hbar.
    destruct (N.ltb_spec c 114) as [Hlt|_]; [lia | discriminate Hbar].
  - split; [|intros _; reflexivity]. intros Hlt.
    destruct (N.ltb_spec c 114) as [_|Hge]; [|lia].
    vm_compute in Hbar. discriminate Hbar.
Qed.

Lemma swr_scale_witness :
  exists swr frac : float,
    swr_display 25.6%float (Some 64) = inr (Some swr, frac) /\
    (64 < 246 -> (swr <? 99.9)%float = true) /\
    (246 <= 64 -> swr = 99.9%float) /\
    (0 <=? frac)%float = true /\ (frac <=? 1)%float = true /\
    (64 < 114 -> (frac <? 1)%float = true) /\
    (114 <= 64 -> frac = 1%float).
Proof.
  apply (swr_scale 25.6%float 64); reflexivity.
Defined.

(** The SWR is shown from 2 W on: a refresh of a store of bytes leaves the
    SWR out exactly when the forward power code is below 200 or the relay
    settings are unset. *)
Theorem swr_shown_from_2_watts (a a' : Application) (d : Display) :
  byte_store a -> NewData a = inr a' -> display a' = Some d ->
  exists fwd : N,
    word a 5 = inr fwd /\
    (swr_shown d = None <-> fwd < 200 \/ get (param2 a) 6 = None).
Proof.
  intros Hb H Hd.
  destruct (NewData_bars a a' d H Hd)
    as (fwd & rfl & Hf & _ & _ & _ & _ & _ & Hswr).
  exists fwd. split; [exact Hf|].
  pose proof (power_codes_ok fwd (word_bytes a 5 fwd Hb Hf)) as Hok.
  unfold power_code_ok in Hok.
  apply andb_prop in Hok. destruct Hok as [_ H2]. apply eqb_prop in H2.
  destruct (get (param2 a) 6) as [c|] eqn:E6.
  - destruct (Hb 6%nat c) as [_ Hc]. specialize (Hc E6).
    destruct (N.leb_spec 200 fwd) as [Hge|Hlt].
    + rewrite (swr_display_value _ c Hc H2) in Hswr.
      injection Hswr as <- _. split; [discriminate|].
      intros [Hlt|Hn]; [lia | discriminate Hn].
    + unfold swr_display in Hswr. rewrite H2 in Hswr.
      injection Hswr as <- _. split; [intros _; left; exact Hlt|reflexivity].
  - cbn [swr_display] in Hswr. injection Hswr as <- _.
    split; [intros _; right; reflexivity | reflexivity].
Qed.

Lemma swr_shown_from_2_watts_witness :
  exists (a' : Application) (d : Display) (fwd : N),
    NewData (fst (Read (full_update 40 0) init)) = inr a' /\
    display a' = Some d /\
    word (fst (Read (full_update 40 0) init)) 5 = inr fwd /\
    (swr_shown d = None <->
     fwd < 200 \/ get (param2 (fst (Read (full_update 40 0) init))) 6 = None).
Proof.
  destruct (NewData (fst (Read (full_update 40 0) init))) as [e|a'] eqn:E.
  - vm_compute in E. discriminate E.
  - destruct (NewData_display _ a' E) as (d & _ & Hd & _).
    destruct (swr_shown_from_2_watts
                (fst (Read (full_update 40 0) init)) a' d)
      as (fwd & Hf & Hiff);
      [apply Read_byte_store;
         [apply full_update_bytes; reflexivity | exact well_formed_init]
      | exact E | exact Hd |].
    exists a', d, fwd. split; [reflexivity|]. split; [exact Hd|].
    split; [exact Hf | exact Hiff].
Defined.

(** ** The threshold row out of range *)

Lemma NewData_raises_with_DisplayIndex (a : Application) (e : exn) :
  DisplayIndex (get (param1 a) 16) = inl e -> raises (NewData a).
Proof.
  unfold NewData, raises. intros H.
  repeat match goal with
         | |- exists e, bind ?m _ = inl e =>
             destruct m eqn:?;
               [eexists; reflexivity | try discriminate H; cbn [bind]]
         end.
Qed.

(** A threshold index the row does not have stops the refresh:
    [DisplayIndex] raises TypeError for an unset index and IndexError for
    an index above 6, and [NewData] raises with it. *)
Theorem threshold_index_out_of_range (a : Application) :
  (get (param1 a) 16 = None ->
   DisplayIndex (get (param1 a) 16) = inl TypeError /\ raises (NewData a)) /\
  (forall k : N, get (param1 a) 16 = Some k -> 6 < k ->
   DisplayIndex (get (param1 a) 16) = inl IndexError /\ raises (NewData a)).
Proof.
  split.
  - intros H.
    assert (E : DisplayIndex (get (param1 a) 16) = inl TypeError)
      by (rewrite H; reflexivity).
    split; [exact E | exact (NewData_raises_with_DisplayIndex a _ E)].
  - intros k H Hk.
    assert (E : DisplayIndex (get (param1 a) 16) = inl IndexError).
    { rewrite H. unfold DisplayIndex. cbn [need bind ret].
      rewrite (lookup_ge_None_2 button_list (N.to_nat k));
        [reflexivity|]. change (length button_list) with 7%nat. lia. }
    split; [exact E | exact (NewData_raises_with_DisplayIndex a _ E)].
Qed.

(** A value that is not on a button: [GetIndex] raises KeyError when the
    row's variable holds a value equal to none of the seven labels, and the
    threshold command is not written. *)
Theorem GetIndex_unknown_value (v : float) (a : Application) :
  (forall l : float, In l labels -> (l =? v)%float = false) ->
  GetIndex v = inl KeyError /\
  OnButtonSwr (set_swr_var v a) = inl KeyError.
Proof.
  intros H.
  assert (E : GetIndex v = inl KeyError).
  { unfold GetIndex, buttons, button_list, labels in *.
    cbn [length seq zip zip_with dict_get].
    repeat (rewrite H by (cbn [In]; auto 10)). reflexivity. }
  split; [exact E|].
  unfold OnButtonSwr. change (swr_var (set_swr_var v a)) with (Some v).
  cbn [bind ret]. rewrite E. reflexivity.
Qed.

Lemma GetIndex_unknown_value_witness :
  GetIndex 4%float = inl KeyError /\
  OnButtonSwr (set_swr_var 4%float init) = inl KeyError.
Proof.
  apply (GetIndex_unknown_value 4%float init).
  intros l Hl. cbn [labels In] in Hl.
  repeat (destruct Hl as [<-|Hl]; [reflexivity|]). destruct Hl.
Defined.

(** ** The two loops of [main] *)

(** What one pass of a loop takes from outside: the two readings of the
    clock and the bytes that [Read] finds at the port. *)
Definition pass : Type := (float * float * list N)%type.

(** The handshake loop, run over the passes given while the window stays
    open and no button is pressed. The flag tells whether the loop was left
    through [break]. *)
Fixpoint handshake_loop (passes : list pass) (a : Application)
  : Application * bool :=
  match passes with
  | [] => (a, false)
  | (t1, t2, chars) :: rest =>
      let '(a1, done) := handshake_select t1 t2 a in
      if done then (a1, true)
      else handshake_loop rest (fst (Read chars a1))
  end.

(** The steady-state loop, run over the passes given in the same way. *)
Fixpoint running_loop (passes : list pass) (a : Application)
  : result Application :=
  match passes with
  | [] => ret a
  | (t1, t2, chars) :: rest =>
      let* a1 := running_tick t1 t2 chars a in
      running_loop rest a1
  end.

Definition handshake_request (b : Z) : Prop :=
  (b = 63 \/ b = 40 \/ b = 41)%Z.

Lemma Write_keeps (s : Z) (a : Application) :
  serial (Write s a) = serial a /\ autotune (Write s a) = autotune a.
Proof.
  unfold Write. destruct (serial a) eqn:E; split;
    try reflexivity; exact E.
Qed.

Lemma handshake_select_sent (t1 t2 : float) (a : Application) :
  serial a = true ->
  serial (fst (handshake_select t1 t2 a)) = true /\
  exists l : list Z,
    sent (fst (handshake_select t1 t2 a)) = sent a ++ l /\
    (length l <= 1)%nat /\ Forall handshake_request l.
Proof.
  intros Hs. unfold handshake_select, handshake_request.
  assert (Hw : forall (s : Z) (b : Application),
            serial b = true -> sent b = sent a ->
            (s = 63 \/ s = 40 \/ s = 41)%Z ->
            serial (Write s b) = true /\
            exists l : list Z,
              sent (Write s b) = sent a ++ l /\
              (length l <= 1)%nat /\
              Forall (fun b => (b = 63 \/ b = 40 \/ b = 41)%Z) l).
  { intros s b Hb Hsent Hreq. split.
    - destruct (Write_keeps s b) as [-> _]. exact Hb.
    - exists [s]. rewrite (sent_Write s b Hb), Hsent.
      split; [|split; [simpl; lia | constructor; [exact Hreq | constructor]]].
      destruct Hreq as [->|[->| ->]]; reflexivity. }
  assert (Hn : serial a = true /\
               exists l : list Z,
                 sent a = sent a ++ l /\ (length l <= 1)%nat /\
                 Forall (fun b => (b = 63 \/ b = 40 \/ b = 41)%Z) l).
  { split; [exact Hs|]. exists []. rewrite app_nil_r.
    split; [reflexivity|]. split; [simpl; lia | constructor]. }
  destruct (py_ne _ (get (param1 a) 19)); cbn [fst];
    [apply Hw; auto|].
  destruct (get (param2 a) 6).
  - destruct (py_ne (get (param1 a) 11) (Some 1)); cbn [fst];
      [apply Hw; auto | exact Hn].
  - destruct (1 <=? t1 - time0 a)%float; cbn [fst];
      [apply Hw; auto | exact Hn].
Qed.

Lemma handshake_select_break (t1 t2 : float) (a : Application) :
  snd (handshake_select t1 t2 a) = true ->
  fst (handshake_select t1 t2 a) = a /\
  get (param1 a) 19 = Some 1 /\ get (param2 a) 6 <> None /\
  get (param1 a) 11 = Some 1.
Proof.
  unfold handshake_select.
  change (Some (Z.to_N (64 - REQ_LIVEUPDATE))) with (Some 1).
  destruct (py_ne (Some 1) (get (param1 a) 19)) eqn:E19;
    [discriminate|].
  apply py_ne_false in E19. symmetry in E19.
  destruct (get (param2 a) 6) as [relays|];
    [|destruct (1 <=? t1 - time0 a)%float; discriminate].
  destruct (py_ne (get (param1 a) 11) (Some 1)) eqn:E11; [discriminate|].
  apply py_ne_false in E11. intros _. cbn [fst].
  split; [reflexivity|]. split; [exact E19|].
  split; [discriminate | exact E11].
Qed.

(** What the handshake loop sends by itself. Over any passes, the loop
    writes at most one byte per pass and only the requests 63 (live
    updates), 40 (all settings) and 41 (version); and once it is left
    through [break], live updates are reported on, the relay settings are
    in and the version is answered. *)
Theorem handshake_loop_requests (passes : list pass) (a : Application) :
  serial a = true ->
  let a' := fst (handshake_loop passes a) in
  (exists l : list Z,
     sent a' = sent a ++ l /\ (length l <= length passes)%nat /\
     Forall handshake_request l) /\
  (snd (handshake_loop passes a) = true ->
   get (param1 a') 19 = Some 1 /\ get (param2 a') 6 <> None /\
   get (param1 a') 11 = Some 1).
Proof.
  cbv zeta. revert a.
  induction passes as [|[[t1 t2] chars] rest IH]; intros a Hs.
  { cbn [handshake_loop fst snd length]. split; [|discriminate].
    exists []. rewrite app_nil_r.
    split; [reflexivity|]. split; [simpl; lia | constructor]. }
  cbn [handshake_loop length].
  destruct (handshake_select_sent t1 t2 a Hs) as (Hs1 & l1 & E1 & L1 & F1).
  pose proof (handshake_select_break t1 t2 a) as Hdone.
  destruct (handshake_select t1 t2 a) as [a1 done]. cbn [fst snd] in *.
  destruct done.
  - cbn [fst snd]. split.
    + exists l1. split; [exact E1|]. split; [lia | exact F1].
    + intros _. destruct (Hdone eq_refl) as (-> & Hc). exact Hc.
  - destruct (Read_same_rest chars a1) as (Er1 & _ & _ & _ & _ & Er2).
    destruct (IH (fst (Read chars a1))) as ((l2 & E2 & L2 & F2) & Hbreak).
    { rewrite Er1. exact Hs1. }
    split; [|exact Hbreak].
    exists (l1 ++ l2). rewrite E2, Er2, E1, app_assoc.
    split; [reflexivity|]. split.
    + rewrite length_app. lia.
    + apply Forall_app. split; assumption.
Qed.

Lemma handshake_loop_requests_witness :
  (exists l : list Z,
     sent (fst (handshake_loop [(1%float, 1%float, [165; 19; 1; 0]);
                                (2%float, 2%float, full_update 40 0);
                                (3%float, 3%float, [])] init)) =
     sent init ++ l /\ (length l <= 3)%nat /\ Forall handshake_request l) /\
  snd (handshake_loop [(1%float, 1%float, [165; 19; 1; 0]);
                       (2%float, 2%float, full_update 40 0);
                       (3%float, 3%float, [])] init) = true.
Proof.
  split.
  - apply (handshake_loop_requests
             [(1%float, 1%float, [165; 19; 1; 0]);
              (2%float, 2%float, full_update 40 0);
              (3%float, 3%float, [])] init).
    reflexivity.
  - vm_compute. reflexivity.
Defined.

Lemma running_select_keeps (t1 t2 : float) (a a' : Application) :
  running_select t1 t2 a = inr a' ->
  serial a' = serial a /\ autotune a' = autotune a.
Proof.
  unfold running_select. intros H.
  destruct (get (param2 a) 6).
  - apply bind_inr in H. destruct H as (standby & _ & H).
    destruct (negb (standby =? 0) && py_ne (get (param1 a) 17) (Some 0)).
    { injection H as <-. apply Write_keeps. }
    destruct ((standby =? 0) && py_ne (autotune a) (get (param1 a) 17)).
    + apply bind_inr in H. destruct H as (want & _ & H).
      apply bind_inr in H. destruct H as (s & _ & H).
      injection H as <-. apply Write_keeps.
    + injection H as <-. auto.
  - destruct (PrimFloat.leb 1 (t1 - time0 a)); injection H as <-.
    + destruct (Write_keeps 40 (set_time0 t2 a)) as [-> ->]. auto.
    + auto.
Qed.

Lemma running_tick_keeps
  (t1 t2 : float) (chars : list N) (a a' : Application) :
  running_tick t1 t2 chars a = inr a' ->
  serial a' = serial a /\ autotune a' = autotune a.
Proof.
  intros H. unfold running_tick in H.
  destruct (running_select t1 t2 a) as [e|a1] eqn:Esel; [discriminate H|].
  cbn [bind] in H.
  destruct (running_select_keeps t1 t2 a a1 Esel) as [<- <-].
  destruct (Read_same_rest chars a1) as (Er1 & Er2 & _).
  destruct (Read chars a1) as [a2 change]. simpl fst in Er1, Er2.
  rewrite <- Er1, <- Er2. destruct change.
  - destruct (NewData_draws a2 a' H) as (d & v & ->). split; reflexivity.
  - injection H as <-. split; reflexivity.
Qed.

(** The requests of the steady-state loop, for the wish [want]. *)
Definition running_request (want : option N) (b : Z) : Prop :=
  b = 40%Z \/ b = 59%Z \/
  exists w : N, want = Some w /\ w <= 59 /\ b = (59 - Z.of_N w)%Z.

(** What the steady-state loop sends by itself. Over any passes that all
    return, the loop keeps the user's AutoTune wish and writes at most one
    byte per pass, each of them 40, 59 or 59 minus the wish; with the wish 0
    or 1, as the Auto button leaves it, that is 40, 58 or 59. *)
Theorem running_loop_requests
  (passes : list pass) (a a' : Application) :
  serial a = true ->
  running_loop passes a = inr a' ->
  autotune a' = autotune a /\
  exists l : list Z,
    sent a' = sent a ++ l /\ (length l <= length passes)%nat /\
    Forall (running_request (autotune a)) l /\
    (autotune a = Some 0 \/ autotune a = Some 1 ->
     Forall (fun b => b = 40 \/ b = 58 \/ b = 59)%Z l).
Proof.
  revert a.
  induction passes as [|[[t1 t2] chars] rest IH]; intros a Hs H.
  { cbn [running_loop ret] in H. injection H as <-.
    split; [reflexivity|]. exists []. rewrite app_nil_r.
    split; [reflexivity|]. split; [simpl; lia|].
    split; [constructor | intros _; constructor]. }
  cbn [running_loop] in H.
  destruct (running_tick t1 t2 chars a) as [e|a1] eqn:Etick;
    [discriminate H|].
  cbn [bind] in H.
  destruct (running_tick_keeps t1 t2 chars a a1 Etick) as [Ks Ka].
  destruct (IH a1) as (Ea & l2 & E2 & L2 & F2 & G2);
    [rewrite Ks; exact Hs | exact H |].
  rewrite Ka in *. split; [exact Ea|].
  pose proof (running_tick_sends_one_byte t1 t2 chars a a1 Hs Etick) as H1.
  assert (Hl1 : exists l1 : list Z,
            sent a1 = sent a ++ l1 /\ (length l1 <= 1)%nat /\
            Forall (running_request (autotune a)) l1 /\
            (autotune a = Some 0 \/ autotune a = Some 1 ->
             Forall (fun b => b = 40 \/ b = 58 \/ b = 59)%Z l1)).
  { unfold running_request.
    destruct H1 as [E|[E|[E|(w & Hw & Hle & E)]]].
    - exists []. rewrite app_nil_r. split; [exact E|].
      split; [simpl; lia|]. split; [constructor | intros _; constructor].
    - exists [40%Z]. split; [exact E|]. split; [simpl; lia|].
      split; [|intros _]; (constructor; [|constructor]);
        left; reflexivity.
    - exists [59%Z]. split; [exact E|]. split; [simpl; lia|].
      split; [|intros _]; (constructor; [|constructor]).
      + right. left. reflexivity.
      + right. right. reflexivity.
    - exists [(59 - Z.of_N w)%Z]. split; [exact E|]. split; [simpl; lia|].
      split.
      + constructor; [|constructor].
        right. right. exists w. split; [exact Hw|].
        split; [exact Hle | reflexivity].
      + intros [H0|H0]; rewrite Hw in H0; injection H0 as ->;
          (constructor; [|constructor]).
        * right. right. reflexivity.
        * right. left. reflexivity. }
  destruct Hl1 as (l1 & E1 & L1 & F1 & G1).
  exists (l1 ++ l2). rewrite E2, E1, app_assoc.
  split; [reflexivity|]. split; [rewrite length_app; simpl length; lia|].
  split; [apply Forall_app; split; assumption|].
  intros Hw. apply Forall_app. split; [apply G1 | apply G2]; exact Hw.
Qed.

(** The device has reported everything, with AutoTune on, and the user has
    pressed the Auto button: AutoTune is wanted off. *)
Definition wants_auto_off : Application :=
  OnButtonAuto true (fst (Read (full_update 40 0) init)).

Lemma running_loop_requests_witness :
  exists a' : Application,
    running_loop [(0%float, 0%float, []);
                  (0%float, 0%float, [165; 17; 0; 0]);
                  (0%float, 0%float, [])] wants_auto_off = inr a' /\
    autotune a' = autotune wants_auto_off /\
    exists l : list Z,
      sent a' = sent wants_auto_off ++ l /\ (length l <= 3)%nat /\
      Forall (running_request (autotune wants_auto_off)) l /\
      (autotune wants_auto_off = Some 0 \/ autotune wants_auto_off = Some 1 ->
       Forall (fun b => b = 40 \/ b = 58 \/ b = 59)%Z l).
Proof.
  destruct (running_loop
              [(0%float, 0%float, []);
               (0%float, 0%float, [165; 17; 0; 0]);
               (0%float, 0%float, [])] wants_auto_off) as [e|a'] eqn:E.
  - vm_compute in E. discriminate E.
  - exists a'. split; [reflexivity|].
    apply (running_loop_requests
             [(0%float, 0%float, []);
              (0%float, 0%float, [165; 17; 0; 0]);
              (0%float, 0%float, [])] wants_auto_off a');
      [reflexivity | exact E].
Defined.
